(** * glmhmm/glm.py: the multinomial GLM fitter, embedded in Rocq

    The class [GLM] of [src/glmhmm/glm.py] is embedded method by method.
    Conventions of the embedding:

    - numpy's float64 arithmetic is read as exact arithmetic on [R];
      where overflow decides a property ([compObs_f64], the range check
      of [uniform]) infinities and [nan] are modelled, rounding is not;
    - a 2-D array is its shape together with an indexing function, a 1-D
      array likewise; shape mismatches raise the exception numpy raises;
    - Python exceptions are values of [exn]; a method that touches [self]
      runs in a state-and-exception monad over the record [GLM], whose
      state survives a raised exception as it does in Python;
    - the collaborators outside the repository (scipy's minimizer,
      autograd's [hessian], [np.linalg.inv]) are Section variables, and
      the global random generator is an explicit record of draws. *)

From Stdlib Require Import Reals Lra Lia List ZArith String Bool Arith.
Import ListNotations.
Open Scope R_scope.

(** ** Exceptions and results *)

Inductive exn : Type :=
| TypeError
| IndexError
| ValueError
| AssertionError
| AttributeError
| OverflowError
| LinAlgError.

Inductive result (A : Type) : Type :=
| Ok (a : A)
| Raise (e : exn).
Arguments Ok {A} a.
Arguments Raise {A} e.

Definition rbind {A B : Type} (r : result A) (k : A -> result B) : result B :=
  match r with
  | Ok a => k a
  | Raise e => Raise e
  end.

Notation "x <- e ;; k" := (rbind e (fun x => k))
  (at level 61, e at next level, right associativity).

(** ** Arrays *)

Record array2 (A : Type) : Type := mk2 {
  nrows : nat;
  ncols : nat;
  item : nat -> nat -> A
}.
Arguments mk2 {A} _ _ _.
Arguments nrows {A} _.
Arguments ncols {A} _.
Arguments item {A} _ _ _.

Record array1 (A : Type) : Type := mk1 {
  size : nat;
  elt : nat -> A
}.
Arguments mk1 {A} _ _.
Arguments size {A} _.
Arguments elt {A} _ _.

Definition matrix : Type := array2 R.
Definition vector : Type := array1 R.

(** An array literal, written as in Python. *)
Definition of_rows (r c : nat) (l : list (list R)) : matrix :=
  mk2 r c (fun i j => nth j (nth i l []) 0).

(** Finite sums: [rsum n f] is [f 0 + ... + f (n-1)]. *)
Fixpoint rsum (n : nat) (f : nat -> R) : R :=
  match n with
  | O => 0
  | S k => rsum k f + f k
  end.

(** Broadcasting of one axis: equal extents, or one of them is 1. *)
Definition bdim (a b : nat) : result nat :=
  if (a =? b)%nat then Ok a
  else if (a =? 1)%nat then Ok b
  else if (b =? 1)%nat then Ok a
  else Raise ValueError.

(** Index into an axis of extent [d] that may be stretched. *)
Definition bix (d i : nat) : nat := if (d =? 1)%nat then O else i.

Definition broadcast2 {A B C : Type} (op : A -> B -> C)
           (a : array2 A) (b : array2 B) : result (array2 C) :=
  r <- bdim (nrows a) (nrows b) ;;
  c <- bdim (ncols a) (ncols b) ;;
  Ok (mk2 r c (fun i j =>
        op (item a (bix (nrows a) i) (bix (ncols a) j))
           (item b (bix (nrows b) i) (bix (ncols b) j)))).

Definition broadcast1 {A B C : Type} (op : A -> B -> C)
           (a : array1 A) (b : array1 B) : result (array1 C) :=
  n <- bdim (size a) (size b) ;;
  Ok (mk1 n (fun i => op (elt a (bix (size a) i)) (elt b (bix (size b) i)))).

(** A 1-D operand of a 2-D operation is a single row. *)
Definition as_row {A : Type} (v : array1 A) : array2 A :=
  mk2 1 (size v) (fun _ j => elt v j).

Definition map2d {A B : Type} (f : A -> B) (a : array2 A) : array2 B :=
  mk2 (nrows a) (ncols a) (fun i j => f (item a i j)).

Definition map1d {A B : Type} (f : A -> B) (v : array1 A) : array1 B :=
  mk1 (size v) (fun i => f (elt v i)).

(** Entry [(i, j)] of the product [x @ w]. *)
Definition dot (x w : matrix) (i j : nat) : R :=
  rsum (ncols x) (fun k => item x i k * item w k j).

(** [x @ w] *)
Definition matmul (x w : matrix) : result matrix :=
  if (ncols x =? nrows w)%nat
  then Ok (mk2 (nrows x) (ncols w) (dot x w))
  else Raise ValueError.

Definition np_exp (a : matrix) : matrix := map2d exp a.

(** [a.T] *)
Definition transpose {A : Type} (a : array2 A) : array2 A :=
  mk2 (ncols a) (nrows a) (fun i j => item a j i).

(** [np.sum(a, axis=1)] *)
Definition np_sum_axis1 (a : matrix) : vector :=
  mk1 (nrows a) (fun i => rsum (ncols a) (fun j => item a i j)).

(** [np.sum(a)] *)
Definition np_sum (a : matrix) : R :=
  rsum (nrows a) (fun i => rsum (ncols a) (fun j => item a i j)).

Definition np_sum1 (v : vector) : R := rsum (size v) (elt v).

(** [np.divide(a, v)] and [np.multiply(a, b)] *)
Definition np_divide (a : matrix) (v : vector) : result matrix :=
  broadcast2 Rdiv a (as_row v).

Definition np_multiply (a b : matrix) : result matrix :=
  broadcast2 Rmult a b.

(** ** [GLM.compObs] (lines 35-56) *)

Definition compObs (x w : matrix) (normalize : bool) : result matrix :=
  xw <- matmul x w ;;
  let phi := np_exp xw in
  phi <- (if normalize
          then q <- np_divide (transpose phi) (np_sum_axis1 phi) ;;
               Ok (transpose q)
          else Ok phi) ;;
  Ok phi.

(** ** [GLM.compObs] with the overflow of float64

    The product [x @ w], [np.exp], the row sums and the division of line
    54 do not raise when a result is too large for float64: they go on
    with [inf] and [nan]. [compObs_f64] is [compObs] with that behaviour,
    on finite x and w; rounding below the overflow threshold is left
    out. *)


(** The least magnitude that float64 rounds to infinity, half-way between
    its largest number and 2^1024. *)
Definition float64_overflow : R := IZR (2 ^ 1024 - 2 ^ 970).











(** Binding of the keyword arguments of a call [self.compObs(x, w, **kwargs)]:
    the only parameter left to bind is [normalize] (default [True]); any
    other keyword is a [TypeError]. *)
Fixpoint bind_normalize (kwargs : list (string * bool)) (normalize : bool)
  : result bool :=
  match kwargs with
  | [] => Ok normalize
  | (k, v) :: rest =>
      if String.eqb k "normalize" then bind_normalize rest v
      else Raise TypeError
  end.

Definition call_compObs (x w : matrix) (kwargs : list (string * bool))
  : result matrix :=
  normalize <- bind_normalize kwargs true ;;
  compObs x w normalize.

(** ** The fitter object and the monad of its methods *)

(** [self]: the dimensions set by [__init__] and the attributes that
    [neglogli] and [fit] create ([None] while the attribute does not
    exist yet). *)
Record GLM : Type := mkGLM {
  self_n : nat;
  self_m : nat;
  self_c : nat;
  self_ll : option R;
  self_w_new : option matrix;
  self_phi : option matrix;
  self_variance : option vector
}.

(** [GLM.__init__] (lines 32-33) *)
Definition init (n m c : nat) : GLM := mkGLM n m c None None None None.

Definition M (A : Type) : Type := GLM -> GLM * result A.

Definition ret {A : Type} (a : A) : M A := fun self => (self, Ok a).

Definition raise {A : Type} (e : exn) : M A := fun self => (self, Raise e).

Definition bind {A B : Type} (c : M A) (k : A -> M B) : M B :=
  fun self =>
    match c self with
    | (self', Ok a) => k a self'
    | (self', Raise e) => (self', Raise e)
    end.

Definition lift {A : Type} (r : result A) : M A := fun self => (self, r).

Definition get : M GLM := fun self => (self, Ok self).

Notation "x <~ e ;; k" := (bind e (fun x => k))
  (at level 61, e at next level, right associativity).

Definition set_ll (v : R) : M unit := fun self =>
  (mkGLM (self_n self) (self_m self) (self_c self) (Some v)
         (self_w_new self) (self_phi self) (self_variance self), Ok tt).

Definition set_w_new (a : matrix) : M unit := fun self =>
  (mkGLM (self_n self) (self_m self) (self_c self) (self_ll self)
         (Some a) (self_phi self) (self_variance self), Ok tt).

Definition set_phi (a : matrix) : M unit := fun self =>
  (mkGLM (self_n self) (self_m self) (self_c self) (self_ll self)
         (self_w_new self) (Some a) (self_variance self), Ok tt).

Definition set_variance (v : vector) : M unit := fun self =>
  (mkGLM (self_n self) (self_m self) (self_c self) (self_ll self)
         (self_w_new self) (self_phi self) (Some v), Ok tt).

(** Reading an attribute that was never set is an [AttributeError]. *)
Definition attribute {A : Type} (field : GLM -> option A) : M A := fun self =>
  match field self with
  | Some a => (self, Ok a)
  | None => (self, Raise AttributeError)
  end.

(** ** [GLM.neglogli] (lines 59-88) *)

(** The weight argument is a 2-D array, or the 1-D array that the
    minimizer hands to the objective. *)
Inductive ndarray : Type :=
| Arr1 (v : vector)
| Arr2 (a : matrix).

(** [w[:,np.newaxis]] on a 1-D array *)
Definition newaxis_col (v : vector) : matrix :=
  mk2 (size v) 1 (fun i _ => elt v i).

(** Lines 76-77: [w.shape[1]] raises [IndexError] on a 1-D array, which
    the handler turns into a column. *)
Definition promote (w : ndarray) : matrix :=
  match w with
  | Arr2 a => a
  | Arr1 v => newaxis_col v
  end.

(** [np.rint]: round to the nearest integer, ties to the even one. *)
Definition rint (r : R) : Z :=
  let f := Int_part r in
  let d := r - IZR f in
  if Rlt_dec d (1 / 2) then f
  else if Rlt_dec (1 / 2) d then (f + 1)%Z
  else if Z.even f then f else (f + 1)%Z.

(** [np.round(r, decimals)], on [R]: the float64 rounding of the product
    [r * 10 ^ decimals] is left out. *)
Definition np_round (r : R) (decimals : nat) : R :=
  IZR (rint (r * 10 ^ decimals)) / 10 ^ decimals.

(** The asserted expression of line 84. *)
Definition sanity_value (phi : matrix) (norm : vector) : result R :=
  q <- np_divide (transpose phi) norm ;;
  Ok (np_round (np_sum q) 2).

(** Lines 80-88, from the matrix [phi] of line 79 on, on [R]: a [phi]
    that holds inf or nan is outside it, and [np.log] of a non-positive
    number (-inf or nan in numpy) is whatever [ln] gives. No call reaches
    these lines, since line 79 raises; below only their shape checks are
    used. *)
Definition neglogli_from_phi (phi y : matrix) : M R :=
  let norm := np_sum_axis1 phi in
  py <~ lift (np_multiply phi y) ;;
  let weightedObs := np_sum_axis1 py in
  log_pyx <~ lift (broadcast1 Rminus (map1d ln weightedObs) (map1d ln norm)) ;;
  s <~ lift (sanity_value phi norm) ;;
  if Req_dec_T s 1
  then _ <~ set_ll (- np_sum1 log_pyx) ;;
       ret (- np_sum1 log_pyx)
  else raise AssertionError.

Definition neglogli (x : matrix) (w : ndarray) (y : matrix) : M R :=
  let w := promote w in
  phi <~ lift (call_compObs x w [("normailize"%string, false)]) ;;
  neglogli_from_phi phi y.

(** ** [GLM.fit] (lines 90-125) *)

Record array4 : Type := mk4 {
  dim4 : nat * nat * nat * nat;
  item4 : nat -> nat -> nat -> nat -> R
}.

Definition count4 (t : array4) : nat :=
  let '(d1, d2, d3, d4) := dim4 t in (d1 * d2 * d3 * d4)%nat.

(** [t.T] reverses the axes. *)
Definition transpose4 (t : array4) : array4 :=
  let '(d1, d2, d3, d4) := dim4 t in
  mk4 (d4, d3, d2, d1) (fun a b c d => item4 t d c b a).

(** The shape [(r, c)] asked of [reshape] for [total] elements: a single
    [-1] is inferred, any other negative extent is refused. *)
Definition resolve_shape (total : nat) (r c : Z) : result (nat * nat) :=
  if ((r <? -1) || (c <? -1))%Z then Raise ValueError
  else if ((r =? -1) && (c =? -1))%Z then Raise ValueError
  else if (r =? -1)%Z then
    if (c =? 0)%Z || negb (total mod Z.to_nat c =? 0)%nat then Raise ValueError
    else Ok ((total / Z.to_nat c)%nat, Z.to_nat c)
  else if (c =? -1)%Z then
    if (r =? 0)%Z || negb (total mod Z.to_nat r =? 0)%nat then Raise ValueError
    else Ok (Z.to_nat r, (total / Z.to_nat r)%nat)
  else if (Z.to_nat r * Z.to_nat c =? total)%nat
       then Ok (Z.to_nat r, Z.to_nat c)
       else Raise ValueError.

(** [np.reshape(v, (r, c))] of a 1-D array, row-major *)
Definition reshape (v : vector) (r c : Z) : result matrix :=
  s <- resolve_shape (size v) r c ;;
  Ok (mk2 (fst s) (snd s) (fun i j => elt v (i * snd s + j))).

(** [t.reshape((r, c))] of a 4-D array, row-major *)
Definition reshape4 (t : array4) (r c : Z) : result matrix :=
  s <- resolve_shape (count4 t) r c ;;
  let '(_, d2, d3, d4) := dim4 t in
  Ok (mk2 (fst s) (snd s) (fun i j =>
        let p := (i * snd s + j)%nat in
        item4 t (p / (d2 * d3 * d4)) ((p / (d3 * d4)) mod d2)
                ((p / d4) mod d3) (p mod d4))).

(** [np.ndarray.flatten(a)], row-major *)
Definition flatten (a : matrix) : vector :=
  mk1 (nrows a * ncols a) (fun p => item a (p / ncols a) (p mod ncols a)).

(** [a[:,1:]] *)
Definition cols_from_1 (a : matrix) : matrix :=
  mk2 (nrows a) (ncols a - 1) (fun i j => item a i (S j)).

Definition zeros (r c : nat) : matrix := mk2 r c (fun _ _ => 0).

Definition hstack (a b : matrix) : result matrix :=
  if (nrows a =? nrows b)%nat
  then Ok (mk2 (nrows a) (ncols a + ncols b)
             (fun i j => if (j <? ncols a)%nat then item a i j
                         else item b i (j - ncols a)))
  else Raise ValueError.

Definition vstack (a b : matrix) : result matrix :=
  if (ncols a =? ncols b)%nat
  then Ok (mk2 (nrows a + nrows b) (ncols a)
             (fun i j => if (i <? nrows a)%nat then item a i j
                         else item b (i - nrows a) j))
  else Raise ValueError.

(** [np.diag] of a 2-D array, and [np.sqrt] *)
Definition diag (a : matrix) : vector :=
  mk1 (Nat.min (nrows a) (ncols a)) (fun i => item a i i).

Definition np_sqrt (v : vector) : vector := map1d sqrt v.

(** A collaborator that drives the objective: it returns, raises, or asks
    for the objective at a point and goes on from the answer. An exception
    of the objective is not caught. *)
Inductive plan (Q A : Type) : Type :=
| Done (a : A)
| Throw (e : exn)
| Ask (p : vector) (k : Q -> plan Q A).
Arguments Done {Q A} a.
Arguments Throw {Q A} e.
Arguments Ask {Q A} p k.

Fixpoint run {Q A : Type} (f : ndarray -> M Q) (pl : plan Q A) : M A :=
  match pl with
  | Done a => ret a
  | Throw e => raise e
  | Ask p k => q <~ f (Arr1 p) ;; run f (k q)
  end.

(** Every point a plan can return has [n] coordinates. *)
Fixpoint returns_size {Q : Type} (n : nat) (pl : plan Q vector) : Prop :=
  match pl with
  | Done a => size a = n
  | Throw _ => True
  | Ask _ k => forall q, returns_size n (k q)
  end.

Section Fit.

(** autograd: the gradient and the Hessian that differentiation of [f]
    yields at a point. Both [value_and_grad(f)] and [hessian(f)] run [f]
    itself once at that point. *)
Variable grad_of : (ndarray -> M R) -> ndarray -> vector.
Variable hess_of : (ndarray -> M R) -> ndarray -> array4.

(** scipy's L-BFGS-B, started at a point, as a plan over the pairs of
    value and gradient; its result is the field [x] of [OptimizeResult]. *)
Variable lbfgsb : vector -> plan (R * vector) vector.

(** [np.linalg.inv] *)
Variable inv : matrix -> result matrix.

Definition value_and_grad (f : ndarray -> M R) (p : ndarray)
  : M (R * vector) :=
  v <~ f p ;;
  ret (v, grad_of f p).

Definition hessian (f : ndarray -> M R) (p : ndarray) : M array4 :=
  _ <~ f p ;;
  ret (hess_of f p).

Definition minimize (fg : ndarray -> M (R * vector)) (x0 : vector)
  : M vector :=
  run fg (lbfgsb x0).

Definition fit (x w y : matrix) (compHess : bool) : M (matrix * matrix) :=
  let w_flat := flatten (cols_from_1 w) in
  let opt_log := fun w => neglogli x w y in
  res <~ minimize (value_and_grad opt_log) w_flat ;;
  self <~ get ;;
  blk <~ lift (reshape res (Z.of_nat (self_m self))
                       (Z.of_nat (self_c self) - 1)) ;;
  wn <~ lift (hstack (zeros (self_m self) 1) blk) ;;
  _ <~ set_w_new wn ;;
  p <~ lift (call_compObs x w []) ;;
  _ <~ set_phi p ;;
  _ <~ (if compHess
        then
          wn <~ attribute self_w_new ;;
          H <~ hessian opt_log (Arr2 (cols_from_1 wn)) ;;
          self <~ get ;;
          let k := (Z.of_nat (self_m self) * (Z.of_nat (self_c self) - 1))%Z in
          Hk <~ lift (reshape4 (transpose4 H) k k) ;;
          Hinv <~ lift (inv Hk) ;;
          set_variance (np_sqrt (diag Hinv))
        else ret tt) ;;
  wn <~ attribute self_w_new ;;
  p <~ attribute self_phi ;;
  ret (wn, p).

End Fit.

(** ** [GLM.generate_data] (lines 127-173) *)

(** The values that the global generator [np.random] hands out during one
    run, in the order of the calls: unit draws in [0,1) behind the two
    [uniform] calls and behind [rand], raw integers behind [randint]. *)
Record Draws : Type := mkDraws {
  draw_w : nat -> nat -> R;
  draw_x : nat -> nat -> Z;
  draw_b : nat -> nat -> R;
  draw_u : nat -> R
}.

Definition unit_draw (u : R) : Prop := 0 <= u < 1.

Definition valid_draws (d : Draws) : Prop :=
  (forall i j, unit_draw (draw_w d i j)) /\
  (forall i j, unit_draw (draw_b d i j)) /\
  (forall i, unit_draw (draw_u d i)).

(** A unit draw with the rounding of what is computed from it folded
    in. *)
Definition rounded_draw (u : R) : Prop := 0 <= u <= 1.

(** The range [high - low] is a finite float64. *)
Definition finite_range (low high : R) : Prop :=
  Rabs (high - low) < float64_overflow.

(** [low] and [high - 1] are 64-bit integers. *)
Definition int64_range (low high : Z) : Prop :=
  (- 2 ^ 63 <= low)%Z /\ (high <= 2 ^ 63)%Z.

(** [np.random.uniform(low, high=high, size=(r, c))]: a range that is not
    finite is refused first, then a negative extent; each value is
    [low + (high - low) * u] for a unit draw [u]. In float64 the product
    and the sum are rounded, and the value can come out as [high] itself:
    it is [low + (high - low) * u'] for a [u'] of [0, 1], 1 included
    ([rounded_draw]). *)
Definition uniform (low high : R) (r : nat) (c : Z) (u : nat -> nat -> R)
  : result matrix :=
  if Rle_dec float64_overflow (Rabs (high - low)) then Raise OverflowError
  else if (c <? 0)%Z then Raise ValueError
  else Ok (mk2 r (Z.to_nat c) (fun i j => low + (high - low) * u i j)).

(** [np.random.randint(low, high=high, size=(r, c))]: integers of
    [low, high). Unless nothing is drawn, bounds outside the 64-bit
    integers and an empty range are refused. *)
Definition randint (low high : Z) (r c : nat) (raw : nat -> nat -> Z)
  : result matrix :=
  if (r * c =? 0)%nat then Ok (mk2 r c (fun _ _ => 0))
  else if ((low <? - 2 ^ 63) || (2 ^ 63 <? high))%Z then Raise ValueError
  else if (low <? high)%Z
       then Ok (mk2 r c (fun i j => IZR (low + raw i j mod (high - low))))
       else Raise ValueError.

(** [np.random.rand(r, 1)] *)
Definition rand (r : nat) (u : nat -> R) : matrix :=
  mk2 r 1 (fun i _ => u i).

(** [w[:,1:] = v] *)
Definition assign_cols_from_1 (w v : matrix) : result matrix :=
  if ((nrows v =? nrows w) || (nrows v =? 1))%nat
     && ((ncols v =? ncols w - 1) || (ncols v =? 1))%nat
  then Ok (mk2 (nrows w) (ncols w)
             (fun i j => match j with
                         | O => item w i O
                         | S j' => item v (bix (nrows v) i) (bix (ncols v) j')
                         end))
  else Raise ValueError.

(** [x[:,1,np.newaxis]] *)
Definition column_1 (x : matrix) : result matrix :=
  if (1 <? ncols x)%nat
  then Ok (mk2 (nrows x) 1 (fun i _ => item x i 1%nat))
  else Raise IndexError.

(** [w[0,:]] *)
Definition row_0 (w : matrix) : result vector :=
  if (0 <? nrows w)%nat
  then Ok (mk1 (ncols w) (fun j => item w O j))
  else Raise IndexError.

Definition ones_like2 (a : matrix) : matrix := map2d (fun _ => 1) a.
Definition ones_like1 (v : vector) : vector := map1d (fun _ => 1) v.

(** [a.cumsum(axis=1)] *)
Definition cumsum_axis1 (a : matrix) : matrix :=
  mk2 (nrows a) (ncols a) (fun i j => rsum (S j) (fun k => item a i k)).

(** [a < b], elementwise *)
Definition np_less (a b : matrix) : result (array2 bool) :=
  broadcast2 (fun p q => if Rlt_dec p q then true else false) a b.

Fixpoint first_true_from (f : nat -> bool) (start len : nat) : option nat :=
  match len with
  | O => None
  | S l => if f start then Some start else first_true_from f (S start) l
  end.

(** [b.argmax(axis=1)] of a boolean array: the first [True] of each row,
    and 0 for a row without one. *)
Definition argmax_axis1 (b : array2 bool) : result (array1 nat) :=
  if (ncols b =? 0)%nat then Raise ValueError
  else Ok (mk1 (nrows b)
             (fun i => match first_true_from (item b i) O (ncols b) with
                       | Some j => j
                       | None => O
                       end)).

(** [np.arange(n)] *)
Definition arange (n : nat) : array1 nat := mk1 n (fun i => i).

(** [y[rows, cols] = v] with two index arrays *)
Definition assign_at (y : matrix) (rows cols : array1 nat) (v : R)
  : result matrix :=
  match bdim (size rows) (size cols) with
  | Raise _ => Raise IndexError
  | Ok len =>
      let r := fun k => elt rows (bix (size rows) k) in
      let c := fun k => elt cols (bix (size cols) k) in
      if forallb (fun k => (r k <? nrows y)%nat && (c k <? ncols y)%nat)
                 (seq 0 len)
      then Ok (mk2 (nrows y) (ncols y)
                 (fun i j =>
                    if existsb (fun k => (r k =? i)%nat && (c k =? j)%nat)
                               (seq 0 len)
                    then v else item y i j))
      else Raise IndexError
  end.

Definition generate_data (self : GLM) (rng : Draws)
           (wdist : R * R) (xdist : Z * Z) (bias : bool)
  : result (matrix * matrix * matrix) :=
  (* generate weights *)
  let w := zeros (self_m self) (self_c self) in
  uw <- uniform (fst wdist) (snd wdist) (self_m self)
                (Z.of_nat (self_c self) - 1) (draw_w rng) ;;
  w <- assign_cols_from_1 w uw ;;
  (* generate data *)
  x <- randint (fst xdist) (snd xdist) (self_n self) (self_m self)
               (draw_x rng) ;;
  (* add optional bias to weights *)
  xw <- (if bias
         then
           col <- column_1 x ;;
           x' <- hstack (ones_like2 col) x ;;
           w0 <- row_0 w ;;
           ub <- uniform (fst wdist) (snd wdist) 1
                         (Z.of_nat (self_c self) - 1) (draw_b rng) ;;
           hs <- hstack (zeros 1 1) ub ;;
           brow <- np_multiply (as_row (ones_like1 w0)) hs ;;
           w' <- vstack brow w ;;
           Ok (x', w')
         else Ok (x, w)) ;;
  let '(x, w) := xw in
  (* generate observation probabilities *)
  phi <- call_compObs x w [] ;;
  let cumdist := cumsum_axis1 phi in
  let undist := rand (nrows cumdist) (draw_u rng) in
  lt <- np_less undist cumdist ;;
  obs <- argmax_axis1 lt ;;
  (* convert to nxc matrix of binary values *)
  let y := zeros (self_n self) (self_c self) in
  y <- assign_at y (arange (self_n self)) obs 1 ;;
  Ok (x, w, y).

(** The number of columns that [bias] puts in front of the sampled ones. *)
Definition bias_cols (bias : bool) : nat := if bias then 1%nat else 0%nat.

(** ** Sample inputs and collaborators *)

(** Two samples with one feature, all zero; two classes. *)
Definition x_two : matrix := of_rows 2 1 [[0]; [0]].
Definition w_two : matrix := of_rows 1 2 [[0; 0]].

(** Four samples with a bias column and one feature; two classes. *)
Definition x_four : matrix := of_rows 4 2 [[1; 0]; [1; 1]; [1; 2]; [1; 3]].
Definition w_four : matrix := of_rows 2 2 [[0; 0]; [0; 1]].


(** One sample, one feature, two classes. *)
Definition x_one : matrix := of_rows 1 1 [[1]].
Definition w_one : matrix := of_rows 1 2 [[1; 0]].
Definition y_one : matrix := of_rows 1 2 [[0; 1]].

(** Collaborators of the simplest kind: a minimizer that stops at its
    starting point without asking for the objective, derivatives that are
    zero, and an inverse that refuses every matrix. *)
Definition lbfgsb_stop (x0 : vector) : plan (R * vector) vector := Done x0.
Definition grad_zero (f : ndarray -> M R) (p : ndarray) : vector :=
  mk1 0 (fun _ => 0).
Definition hess_zero (f : ndarray -> M R) (p : ndarray) : array4 :=
  mk4 (0, 0, 0, 0)%nat (fun _ _ _ _ => 0).
Definition inv_refuse (a : matrix) : result matrix := Raise LinAlgError.

(** A generator whose every draw is zero. *)
Definition rng_zero : Draws :=
  mkDraws (fun _ _ => 0) (fun _ _ => 0%Z) (fun _ _ => 0) (fun _ => 0).

(** A weight matrix with one row too many for a fitter with m = 1. *)
Definition w_tall : matrix := of_rows 2 2 [[0; 1]; [0; 2]].


(** A minimizer that asks for the objective at its starting point and
    then stops there. *)
Definition lbfgsb_probe (x0 : vector) : plan (R * vector) vector :=
  Ask x0 (fun _ => Done x0).


(** * Properties *)

(** ** Sums and broadcasting *)




Lemma rsum_const (n : nat) (v : R) : rsum n (fun _ => v) = INR n * v.
Proof.
  induction n as [|n IH].
  - simpl. ring.
  - rewrite S_INR. simpl. rewrite IH. ring.
Qed.

Lemma bix_lt (d i : nat) : (i < d)%nat -> bix d i = i.
Proof.
  unfold bix. intros H. destruct (Nat.eqb_spec d 1); [lia | reflexivity].
Qed.

Lemma bix_0 (d : nat) : bix d 0 = O.
Proof. unfold bix. destruct (d =? 1)%nat; reflexivity. Qed.

Lemma bdim_refl (a : nat) : bdim a a = Ok a.
Proof. unfold bdim. now rewrite Nat.eqb_refl. Qed.

Lemma bdim_1_r (a : nat) : bdim a 1 = Ok a.
Proof.
  unfold bdim. destruct (Nat.eqb_spec a 1) as [->|]; [reflexivity|].
  reflexivity.
Qed.

Lemma bdim_1_l (a : nat) : bdim 1 a = Ok a.
Proof.
  unfold bdim. destruct (Nat.eqb_spec 1 a) as [<-|]; reflexivity.
Qed.

(** ** [compObs] *)

Lemma compObs_unnormalized (x w : matrix) :
  ncols x = nrows w ->
  compObs x w false = Ok (mk2 (nrows x) (ncols w) (fun i j => exp (dot x w i j))).
Proof.
  intros H. unfold compObs, matmul. rewrite H, Nat.eqb_refl. reflexivity.
Qed.

Lemma compObs_shape_mismatch (x w : matrix) (normalize : bool) :
  ncols x <> nrows w -> compObs x w normalize = Raise ValueError.
Proof.
  intros H. unfold compObs, matmul.
  destruct (Nat.eqb_spec (ncols x) (nrows w)); [contradiction | reflexivity].
Qed.

(** The normalized matrix, entry by entry: the softmax of the scores. *)
Lemma compObs_normalized (x w : matrix) :
  ncols x = nrows w ->
  exists phi,
    compObs x w true = Ok phi /\
    nrows phi = nrows x /\ ncols phi = ncols w /\
    forall i j, (i < nrows x)%nat -> (j < ncols w)%nat ->
      item phi i j =
      exp (dot x w i j) / rsum (ncols w) (fun k => exp (dot x w i k)).
Proof.
  intros H. unfold compObs, matmul. rewrite H, Nat.eqb_refl.
  unfold np_divide, broadcast2. cbn [rbind nrows ncols transpose np_exp map2d
    as_row np_sum_axis1 size].
  rewrite bdim_1_r, bdim_refl. cbn [rbind].
  eexists. split; [reflexivity|]. cbn [nrows ncols transpose item].
  repeat split.
  intros i j Hi Hj. cbn [elt]. rewrite (bix_lt _ i Hi), (bix_lt _ j Hj).
  reflexivity.
Qed.


(** C8. For x (n x m) and w (m x c), [compObs x w false] returns the n x c
    matrix whose entry (i, j) is exactly exp of entry (i, j) of x.w. *)
Theorem compObs_false_is_exp (x w : matrix) :
  ncols x = nrows w ->
  exists phi,
    compObs x w false = Ok phi /\
    nrows phi = nrows x /\ ncols phi = ncols w /\
    forall i j, item phi i j = exp (rsum (ncols x) (fun k => item x i k * item w k j)).
Proof.
  intros H. rewrite (compObs_unnormalized x w H).
  eexists. split; [reflexivity|]. cbn. repeat split.
Qed.

Lemma compObs_false_is_exp_witness :
  exists phi,
    compObs x_four w_four false = Ok phi /\
    nrows phi = 4%nat /\ ncols phi = 2%nat /\
    forall i j,
      item phi i j = exp (rsum 2 (fun k => item x_four i k * item w_four k j)).
Proof.
  apply (compObs_false_is_exp x_four w_four).
  reflexivity.
Defined.

(** ** [compObs] in float64: overflow *)

Lemma float64_overflow_above_2 : 2 < float64_overflow.
Proof.
  unfold float64_overflow. apply (IZR_lt 2). vm_compute. reflexivity.
Qed.























(** ** [neglogli] *)

(** C1. For valid x, w and one-hot y, [neglogli x w y] is claimed to
    return minus the sum of the per-row log-likelihoods. As written, line
    79 passes the keyword [normailize], which [compObs] does not have:
    every call raises [TypeError], on every input and in every state, and
    leaves [self] as it was. *)
Theorem neglogli_raises_TypeError (x : matrix) (w : ndarray) (y : matrix)
        (self : GLM) :
  neglogli x w y self = (self, Raise TypeError).
Proof. reflexivity. Qed.


(** ** [fit] *)

Section FitProperties.

Variable grad_of : (ndarray -> M R) -> ndarray -> vector.
Variable hess_of : (ndarray -> M R) -> ndarray -> array4.
Variable lbfgsb : vector -> plan (R * vector) vector.
Variable inv : matrix -> result matrix.

(** The objective of line 111 raises whenever the minimizer asks for
    it, so a run of the minimizer leaves [self] alone and can only
    return a point it chose without the objective. *)
Lemma minimize_objective (x y : matrix) (x0 : vector) (self : GLM) :
  minimize lbfgsb (value_and_grad grad_of (fun w => neglogli x w y)) x0 self
  = match lbfgsb x0 with
    | Done a => (self, Ok a)
    | Throw e => (self, Raise e)
    | Ask _ _ => (self, Raise TypeError)
    end.
Proof.
  unfold minimize. destruct (lbfgsb x0); reflexivity.
Qed.

Lemma hessian_objective (x y : matrix) (p : ndarray) (self : GLM) :
  hessian hess_of (fun w => neglogli x w y) p self = (self, Raise TypeError).
Proof. reflexivity. Qed.

Lemma hstack_zeros_column (m : nat) (blk wn : matrix) :
  hstack (zeros m 1) blk = Ok wn ->
  nrows wn = m /\ ncols wn = S (ncols blk) /\
  (forall i, item wn i O = 0) /\
  (forall i j, item wn i (S j) = item blk i j).
Proof.
  unfold hstack. cbn [nrows ncols zeros].
  destruct (m =? nrows blk)%nat; [|discriminate].
  intros E. inversion E; subst; clear E. cbn [nrows ncols item].
  repeat split. intros i j. cbn. rewrite Nat.sub_0_r. reflexivity.
Qed.

(** C3. The probability matrix of [fit] is claimed to be [compObs] at the
    optimized weights. When the minimizer asks for the objective, as
    scipy's does, the call ends in the [TypeError] of line 79 with [self]
    untouched: nothing is returned or cached. And whatever the minimizer
    does, the only matrix [fit] ever stores in [self.phi] is
    [compObs x w] at the argument w (line 117), never one computed from
    w_new. *)
Theorem fit_phi_never_at_new_weights (x w y : matrix) (compHess : bool)
        (self : GLM) :
  let out := fit grad_of hess_of lbfgsb inv x w y compHess self in
  (forall q k, lbfgsb (flatten (cols_from_1 w)) = Ask q k ->
     out = (self, Raise TypeError)) /\
  (self_phi (fst out) = self_phi self \/
   exists p, compObs x w true = Ok p /\ self_phi (fst out) = Some p).
Proof.
  cbv zeta. split.
  - intros q k El. unfold fit, bind. cbv zeta.
    rewrite minimize_objective, El. reflexivity.
  - unfold fit, bind, get, lift, set_w_new, set_phi, attribute, ret.
    cbv zeta. rewrite minimize_objective.
    destruct (lbfgsb (flatten (cols_from_1 w))) as [res|e|q k];
      [|left; reflexivity|left; reflexivity].
    destruct (reshape res _ _) as [blk|e]; [|left; reflexivity].
    destruct (hstack _ blk) as [wn|e]; [|left; reflexivity].
    destruct (call_compObs x w []) as [p|e] eqn:Ep; [|left; reflexivity].
    right. exists p. split; [exact Ep|].
    destruct compHess;
      cbn [self_n self_m self_c self_ll self_w_new self_phi self_variance].
    + rewrite hessian_objective. reflexivity.
    + reflexivity.
Qed.

(** C5. [fit] is claimed to return a weight matrix whose column 0 is
    zero. When the minimizer asks for the objective, as scipy's does, the
    call ends in the [TypeError] of line 79 with [self] untouched: no
    weight matrix is returned or cached. And whatever the minimizer does,
    [self.w_new] after the call is what it was before or a matrix of
    [self.m] rows whose column 0 is zero (line 114). *)
Theorem fit_w_new_column_0 (x w y : matrix) (compHess : bool) (self : GLM) :
  let out := fit grad_of hess_of lbfgsb inv x w y compHess self in
  (forall q k, lbfgsb (flatten (cols_from_1 w)) = Ask q k ->
     out = (self, Raise TypeError)) /\
  (self_w_new (fst out) = self_w_new self \/
   exists wn, self_w_new (fst out) = Some wn /\
              nrows wn = self_m self /\ forall i, item wn i O = 0).
Proof.
  cbv zeta. split.
  - intros q k El. unfold fit, bind. cbv zeta.
    rewrite minimize_objective, El. reflexivity.
  - unfold fit, bind, get, lift, set_w_new, set_phi, attribute, ret.
    cbv zeta. rewrite minimize_objective.
    destruct (lbfgsb (flatten (cols_from_1 w))) as [res|e|q k];
      [|left; reflexivity|left; reflexivity].
    destruct (reshape res _ _) as [blk|e]; [|left; reflexivity].
    destruct (hstack _ blk) as [wn|e] eqn:Eh; [|left; reflexivity].
    right. exists wn.
    apply hstack_zeros_column in Eh. destruct Eh as (Hr & _ & H0 & _).
    split; [|split; [exact Hr | exact H0]].
    destruct (call_compObs x w []) as [p|e]; [|reflexivity].
    destruct compHess;
      cbn [self_n self_m self_c self_ll self_w_new self_phi self_variance].
    + rewrite hessian_objective. reflexivity.
    + reflexivity.
Qed.

(** C6. With [compHess] set, [fit] is claimed to cache the square roots
    of the diagonal of the inverse Hessian. Differentiating the
    objective runs it, and it raises at line 79: no call of [fit] with
    [compHess] set returns, and [self.variance] is left as it was. *)
Theorem fit_compHess_raises (x w y : matrix) (self : GLM) :
  exists self' e,
    fit grad_of hess_of lbfgsb inv x w y true self = (self', Raise e) /\
    self_variance self' = self_variance self.
Proof.
  unfold fit, bind, get, lift, set_w_new, set_phi, attribute, ret.
  cbv zeta. rewrite minimize_objective.
  destruct (lbfgsb (flatten (cols_from_1 w))) as [res|e|q k];
    [|eexists; eexists; split; reflexivity
     |eexists; eexists; split; reflexivity].
  destruct (reshape res _ _) as [blk|e];
    [|eexists; eexists; split; reflexivity].
  destruct (hstack _ blk) as [wn'|e];
    [|eexists; eexists; split; reflexivity].
  destruct (call_compObs x w []) as [p'|e];
    [|eexists; eexists; split; reflexivity].
  cbn [self_n self_m self_c self_ll self_w_new self_phi self_variance].
  rewrite hessian_objective.
  eexists; eexists; split; reflexivity.
Qed.

End FitProperties.

Lemma fit_phi_never_at_new_weights_witness :
  fit grad_zero hess_zero lbfgsb_probe inv_refuse x_one w_one y_one false
      (init 1 1 2) = (init 1 1 2, Raise TypeError).
Proof.
  apply (proj1 (fit_phi_never_at_new_weights grad_zero hess_zero lbfgsb_probe
                  inv_refuse x_one w_one y_one false (init 1 1 2))
           (flatten (cols_from_1 w_one))
           (fun _ => Done (flatten (cols_from_1 w_one)))).
  reflexivity.
Defined.

Lemma fit_w_new_column_0_witness :
  fit grad_zero hess_zero lbfgsb_probe inv_refuse x_one w_one y_one true
      (init 1 1 2) = (init 1 1 2, Raise TypeError).
Proof.
  apply (proj1 (fit_w_new_column_0 grad_zero hess_zero lbfgsb_probe
                  inv_refuse x_one w_one y_one true (init 1 1 2))
           (flatten (cols_from_1 w_one))
           (fun _ => Done (flatten (cols_from_1 w_one)))).
  reflexivity.
Defined.

(** ** [generate_data] *)

Tactic Notation "step_ok" hyp(H) "as" ident(v) ident(E) :=
  match type of H with
  | rbind ?e _ = Ok _ =>
      destruct e as [v|] eqn:E; [cbn [rbind] in H | discriminate H]
  end.

Lemma finite_range_small (lo hi : R) :
  - 2 <= hi - lo <= 2 -> finite_range lo hi.
Proof.
  intros H. unfold finite_range. pose proof float64_overflow_above_2.
  unfold Rabs. destruct (Rcase_abs (hi - lo)); lra.
Qed.

(** The side conditions of a returning run, on concrete arguments. *)
Ltac returns_side :=
  first
    [ solve [cbn; lia]
    | solve [apply finite_range_small; cbn [fst snd]; lra]
    | solve [right; split; [cbn; lia | unfold int64_range; cbn; lia]]
    | solve [intros _; cbn; lia] ].

(** The steps of a returning run, in the order of the source. *)
Lemma generate_data_inv (self : GLM) (rng : Draws) (wdist : R * R)
      (xdist : Z * Z) (bias : bool) (x w y : matrix) :
  generate_data self rng wdist xdist bias = Ok (x, w, y) ->
  exists uw w0 x0 phi lt obs,
    uniform (fst wdist) (snd wdist) (self_m self)
            (Z.of_nat (self_c self) - 1) (draw_w rng) = Ok uw /\
    assign_cols_from_1 (zeros (self_m self) (self_c self)) uw = Ok w0 /\
    randint (fst xdist) (snd xdist) (self_n self) (self_m self) (draw_x rng)
      = Ok x0 /\
    (if bias
     then exists col r0 ub hs brow,
         column_1 x0 = Ok col /\
         hstack (ones_like2 col) x0 = Ok x /\
         row_0 w0 = Ok r0 /\
         uniform (fst wdist) (snd wdist) 1 (Z.of_nat (self_c self) - 1)
                 (draw_b rng) = Ok ub /\
         hstack (zeros 1 1) ub = Ok hs /\
         np_multiply (as_row (ones_like1 r0)) hs = Ok brow /\
         vstack brow w0 = Ok w
     else x = x0 /\ w = w0) /\
    call_compObs x w [] = Ok phi /\
    np_less (rand (nrows phi) (draw_u rng)) (cumsum_axis1 phi) = Ok lt /\
    argmax_axis1 lt = Ok obs /\
    assign_at (zeros (self_n self) (self_c self)) (arange (self_n self)) obs 1
      = Ok y.
Proof.
  unfold generate_data. intros H.
  step_ok H as uw Euw. step_ok H as w0 Ew0. step_ok H as x0 Ex0.
  step_ok H as xw Exw. destruct xw as [x1 w1].
  step_ok H as phi Ephi. step_ok H as lt Elt. step_ok H as obs Eobs.
  step_ok H as y1 Ey. inversion H; subst; clear H.
  exists uw, w0, x0, phi, lt, obs.
  repeat (split; [first [reflexivity | assumption]|]).
  split; [|repeat split; assumption].
  destruct bias.
  - step_ok Exw as col Ecol. step_ok Exw as x' Ex'. step_ok Exw as r0 Er0.
    step_ok Exw as ub Eub. step_ok Exw as hs Ehs.
    step_ok Exw as brow Ebrow. step_ok Exw as w' Ew'.
    inversion Exw; subst; clear Exw.
    exists col, r0, ub, hs, brow. repeat split; assumption.
  - inversion Exw; subst. split; reflexivity.
Qed.

Lemma uniform_inv (lo hi : R) (r : nat) (c : Z) (u : nat -> nat -> R)
      (a : matrix) :
  uniform lo hi r c u = Ok a ->
  (0 <= c)%Z /\ a = mk2 r (Z.to_nat c) (fun i j => lo + (hi - lo) * u i j).
Proof.
  unfold uniform.
  destruct (Rle_dec float64_overflow (Rabs (hi - lo))); [discriminate|].
  destruct (Z.ltb_spec c 0); [discriminate|].
  intros E. inversion E. split; [assumption | reflexivity].
Qed.

Lemma uniform_inv_range (lo hi : R) (r : nat) (c : Z) (u : nat -> nat -> R)
      (a : matrix) :
  uniform lo hi r c u = Ok a -> finite_range lo hi.
Proof.
  unfold uniform, finite_range.
  destruct (Rle_dec float64_overflow (Rabs (hi - lo))); [discriminate|].
  intros _. lra.
Qed.

Lemma randint_inv (lo hi : Z) (r c : nat) (raw : nat -> nat -> Z)
      (a : matrix) :
  randint lo hi r c raw = Ok a ->
  nrows a = r /\ ncols a = c /\
  ((r * c)%nat <> O ->
   (lo < hi)%Z /\
   forall i j, item a i j = IZR (lo + raw i j mod (hi - lo))).
Proof.
  unfold randint. destruct (Nat.eqb_spec (r * c) 0) as [E0|N0].
  - intros E. inversion E. cbn.
    split; [reflexivity | split; [reflexivity | intros N; contradiction]].
  - destruct ((lo <? - 2 ^ 63) || (2 ^ 63 <? hi))%Z; [discriminate|].
    destruct (Z.ltb_spec lo hi); [|discriminate].
    intros E. inversion E. cbn.
    split; [reflexivity | split; [reflexivity | intros _]].
    split; [assumption | reflexivity].
Qed.

Lemma assign_cols_from_1_inv (w v w' : matrix) :
  assign_cols_from_1 w v = Ok w' ->
  nrows w' = nrows w /\ ncols w' = ncols w /\
  (forall i, item w' i O = item w i O) /\
  (forall i j, item w' i (S j) = item v (bix (nrows v) i) (bix (ncols v) j)).
Proof.
  unfold assign_cols_from_1.
  destruct (_ && _); [|discriminate].
  intros E. inversion E. cbn. repeat split.
Qed.

Lemma hstack_inv (a b h : matrix) :
  hstack a b = Ok h ->
  nrows a = nrows b /\ nrows h = nrows a /\
  ncols h = (ncols a + ncols b)%nat /\
  (forall i j, (j < ncols a)%nat -> item h i j = item a i j) /\
  (forall i j, item h i (ncols a + j) = item b i j).
Proof.
  unfold hstack. destruct (Nat.eqb_spec (nrows a) (nrows b)); [|discriminate].
  intros E. inversion E. cbn [nrows ncols item]. repeat split; try assumption.
  - intros i j Hj. destruct (Nat.ltb_spec j (ncols a)); [reflexivity | lia].
  - intros i j. destruct (Nat.ltb_spec (ncols a + j) (ncols a)); [lia|].
    f_equal. lia.
Qed.

Lemma vstack_inv (a b v : matrix) :
  vstack a b = Ok v ->
  ncols a = ncols b /\ nrows v = (nrows a + nrows b)%nat /\
  ncols v = ncols a /\
  (forall i j, (i < nrows a)%nat -> item v i j = item a i j) /\
  (forall i j, item v (nrows a + i) j = item b i j).
Proof.
  unfold vstack. destruct (Nat.eqb_spec (ncols a) (ncols b)); [|discriminate].
  intros E. inversion E. cbn [nrows ncols item]. repeat split; try assumption.
  - intros i j Hi. destruct (Nat.ltb_spec i (nrows a)); [reflexivity | lia].
  - intros i j. destruct (Nat.ltb_spec (nrows a + i) (nrows a)); [lia|].
    f_equal. lia.
Qed.

Lemma call_compObs_default_shape (x w phi : matrix) :
  call_compObs x w [] = Ok phi ->
  ncols x = nrows w /\ nrows phi = nrows x /\ ncols phi = ncols w.
Proof.
  unfold call_compObs. cbn [bind_normalize rbind]. intros E.
  destruct (Nat.eq_dec (ncols x) (nrows w)) as [H|H].
  - destruct (compObs_normalized x w H) as (phi' & E' & Hr & Hc & _).
    rewrite E' in E. inversion E; subst. repeat split; assumption.
  - rewrite compObs_shape_mismatch in E by assumption. discriminate.
Qed.

Lemma np_less_rand_shape (n : nat) (u : nat -> R) (c : matrix)
      (lt : array2 bool) :
  np_less (rand n u) c = Ok lt -> nrows c = n ->
  nrows lt = n /\ ncols lt = ncols c.
Proof.
  unfold np_less, broadcast2. cbn [nrows ncols rand]. intros E Hn.
  rewrite Hn, bdim_refl, bdim_1_l in E. cbn [rbind] in E.
  inversion E. cbn. split; reflexivity.
Qed.

Lemma first_true_from_bound (f : nat -> bool) (len start j : nat) :
  first_true_from f start len = Some j -> (start <= j < start + len)%nat.
Proof.
  revert start. induction len as [|len IH]; intros start; simpl.
  - discriminate.
  - destruct (f start).
    + intros E. inversion E. lia.
    + intros E. apply IH in E. lia.
Qed.

Lemma argmax_axis1_inv (b : array2 bool) (obs : array1 nat) :
  argmax_axis1 b = Ok obs ->
  (0 < ncols b)%nat /\ size obs = nrows b /\
  forall i, (elt obs i < ncols b)%nat.
Proof.
  unfold argmax_axis1. destruct (Nat.eqb_spec (ncols b) 0); [discriminate|].
  intros E. inversion E. cbn. repeat split; [lia|].
  intros i. destruct (first_true_from _ _ _) as [j|] eqn:Ej.
  - apply first_true_from_bound in Ej. lia.
  - lia.
Qed.

Lemma existsb_row_hit (n i j : nat) (c : nat -> nat) :
  existsb (fun k => (bix n k =? i)%nat && (c k =? j)%nat) (seq 0 n)
  = ((i <? n)%nat && (c i =? j)%nat)%bool.
Proof.
  apply Bool.eq_iff_eq_true.
  rewrite existsb_exists, andb_true_iff, Nat.ltb_lt, Nat.eqb_eq. split.
  - intros (k & Hin & Hk). apply in_seq in Hin.
    apply andb_true_iff in Hk. destruct Hk as [Hr Hc].
    apply Nat.eqb_eq in Hr, Hc. rewrite bix_lt in Hr by lia. subst k.
    split; [lia | assumption].
  - intros [Hi Hc]. exists i. split.
    + apply in_seq. lia.
    + rewrite bix_lt by assumption. rewrite Nat.eqb_refl. cbn.
      apply Nat.eqb_eq, Hc.
Qed.

(** [y[np.arange(n), obs] = 1] on an n-row array of zeros sets, in each
    row, the one cell that [obs] names. *)
Lemma assign_at_arange (n c : nat) (obs : array1 nat) (y : matrix) :
  assign_at (zeros n c) (arange n) obs 1 = Ok y -> size obs = n ->
  nrows y = n /\ ncols y = c /\
  (forall i, (i < n)%nat -> (elt obs i < c)%nat) /\
  forall i j, (i < n)%nat ->
    item y i j = if (j =? elt obs i)%nat then 1 else 0.
Proof.
  unfold assign_at. intros E Hs. cbn [size arange elt] in E.
  rewrite Hs, bdim_refl in E.
  destruct (forallb _ _) eqn:Hall; [|discriminate].
  inversion E; subst y; clear E. cbn [nrows ncols item zeros].
  repeat split.
  - intros i Hi. rewrite forallb_forall in Hall.
    specialize (Hall i). rewrite in_seq in Hall.
    specialize (Hall ltac:(lia)). cbn [nrows ncols zeros] in Hall.
    apply andb_true_iff in Hall. destruct Hall as [_ Hc].
    apply Nat.ltb_lt in Hc. rewrite bix_lt in Hc by lia. exact Hc.
  - intros i j Hi.
    rewrite (existsb_row_hit n i j (fun k => elt obs (bix n k))).
    rewrite bix_lt by assumption.
    destruct (Nat.ltb_spec i n); [|lia]. cbn [andb].
    rewrite (Nat.eqb_sym j). reflexivity.
Qed.

(** The design matrix of a returning run: n rows; with [bias] a leading
    column of ones; every other entry an integer drawn from
    [xdist[0], xdist[1]). *)
Lemma generate_data_x (self : GLM) (rng : Draws) (wdist : R * R)
      (xdist : Z * Z) (bias : bool) (x w y : matrix) :
  generate_data self rng wdist xdist bias = Ok (x, w, y) ->
  nrows x = self_n self /\
  ncols x = (bias_cols bias + self_m self)%nat /\
  (bias = true -> (2 <= self_m self)%nat /\ forall i, item x i O = 1) /\
  forall i j, (i < self_n self)%nat -> (j < self_m self)%nat ->
    exists z, item x i (bias_cols bias + j) = IZR z /\
              (fst xdist <= z < snd xdist)%Z.
Proof.
  intros H. apply generate_data_inv in H.
  destruct H as (uw & w0 & x0 & phi & lt & obs & _ & _ & Ex0 & Hb & _).
  apply randint_inv in Ex0. destruct Ex0 as (Hr & Hc & Hx0).
  assert (Hz : forall i j, (i < self_n self)%nat -> (j < self_m self)%nat ->
            exists z, item x0 i j = IZR z /\ (fst xdist <= z < snd xdist)%Z).
  { intros i j Hi Hj. destruct Hx0 as [Hlt Hit]; [nia|].
    eexists. split; [apply Hit|].
    pose proof (Z.mod_pos_bound (draw_x rng i j) (snd xdist - fst xdist)
                  ltac:(lia)). lia. }
  destruct bias; cbn [bias_cols].
  - destruct Hb as (col & r0 & ub & hs & brow & Ecol & Ex & _).
    unfold column_1 in Ecol.
    destruct (Nat.ltb_spec 1 (ncols x0)); [|discriminate].
    inversion Ecol; subst col; clear Ecol.
    apply hstack_inv in Ex. cbn [nrows ncols ones_like2 map2d item] in Ex.
    destruct Ex as (_ & Hrx & Hcx & Hl & Hrgt).
    repeat split; try lia.
    + intros i. apply (Hl i O). lia.
    + intros i j Hi Hj. rewrite Hrgt. apply Hz; assumption.
  - destruct Hb as [-> ->]. repeat split; try assumption; try discriminate.
Qed.

(** The weight matrix of a returning run: c >= 1 columns, column 0 zero,
    every other entry [low + (high - low) * u] for a unit draw [u]; with
    [bias] one more row on top. *)
Lemma generate_data_w (self : GLM) (rng : Draws) (wdist : R * R)
      (xdist : Z * Z) (bias : bool) (x w y : matrix) :
  generate_data self rng wdist xdist bias = Ok (x, w, y) ->
  (1 <= self_c self)%nat /\
  nrows w = (bias_cols bias + self_m self)%nat /\
  ncols w = self_c self /\
  (forall i, (i < nrows w)%nat -> item w i O = 0) /\
  forall i j, (i < nrows w)%nat -> (S j < self_c self)%nat ->
    exists u, (u = draw_b rng i j \/ u = draw_w rng (i - bias_cols bias) j) /\
      item w i (S j) = fst wdist + (snd wdist - fst wdist) * u.
Proof.
  intros H. apply generate_data_inv in H.
  destruct H as (uw & w0 & x0 & phi & lt & obs & Euw & Ew0 & _ & Hb & _).
  apply uniform_inv in Euw. destruct Euw as [Hc ->].
  apply assign_cols_from_1_inv in Ew0.
  cbn [nrows ncols zeros item] in Ew0. destruct Ew0 as (Hr0 & Hc0 & H00 & H0S).
  assert (HwS : forall i j, (i < self_m self)%nat -> (S j < self_c self)%nat ->
            item w0 i (S j)
            = fst wdist + (snd wdist - fst wdist) * draw_w rng i j).
  { intros i j Hi Hj. rewrite H0S, !bix_lt by lia. reflexivity. }
  destruct bias; cbn [bias_cols].
  - destruct Hb as (col & r0 & ub & hs & brow & _ & _ & Er0 & Eub & Ehs & Ebrow & Ew).
    unfold row_0 in Er0. destruct (0 <? nrows w0)%nat; [|discriminate].
    inversion Er0; subst r0; clear Er0.
    apply uniform_inv in Eub. destruct Eub as [_ ->].
    apply hstack_inv in Ehs. cbn [nrows ncols zeros item] in Ehs.
    destruct Ehs as (_ & Hrh & Hch & Hhl & Hhr).
    unfold np_multiply, broadcast2 in Ebrow.
    cbn [nrows ncols as_row ones_like1 map1d size elt item] in Ebrow.
    rewrite Hrh, Hch, Hc0, bdim_refl in Ebrow. cbn [rbind] in Ebrow.
    replace (1 + Z.to_nat (Z.of_nat (self_c self) - 1))%nat
      with (self_c self) in Ebrow by lia.
    rewrite bdim_refl in Ebrow. cbn [rbind] in Ebrow.
    inversion Ebrow; subst brow; clear Ebrow.
    apply vstack_inv in Ew. cbn [nrows ncols item] in Ew.
    destruct Ew as (_ & Hrw & Hcw & Htop & Hrest).
    repeat split; try lia.
    + intros i Hi. destruct i as [|i].
      * rewrite Htop by lia. rewrite !bix_0.
        rewrite (Hhl _ O) by lia. ring.
      * rewrite (Hrest i O : item w (S i) O = _). apply H00.
    + intros i j Hi Hj. destruct i as [|i].
      * exists (draw_b rng O j). split; [left; reflexivity|].
        rewrite Htop by lia. rewrite bix_0, (bix_lt _ (S j)) by lia.
        rewrite (Hhr _ j : item hs _ (S j) = _). ring.
      * exists (draw_w rng i j). split.
        { right. f_equal. lia. }
        rewrite (Hrest i (S j) : item w (S i) (S j) = _). apply HwS; lia.
  - destruct Hb as [-> ->]. repeat split; try lia.
    + intros i _. apply H00.
    + intros i j Hi Hj. exists (draw_w rng i j). split.
      * right. f_equal. lia.
      * apply HwS; lia.
Qed.

(** Each step of [generate_data] returns on arguments of the shapes that
    the run gives it. *)
Lemma uniform_ok (lo hi : R) (r : nat) (c : Z) (u : nat -> nat -> R) :
  finite_range lo hi -> (0 <= c)%Z ->
  exists a, uniform lo hi r c u = Ok a /\
            nrows a = r /\ ncols a = Z.to_nat c.
Proof.
  intros Hf H. unfold uniform, finite_range in *.
  destruct (Rle_dec float64_overflow (Rabs (hi - lo))); [lra|].
  destruct (Z.ltb_spec c 0); [lia|].
  eexists. split; [reflexivity|]. split; reflexivity.
Qed.

Lemma randint_ok (lo hi : Z) (r c : nat) (raw : nat -> nat -> Z) :
  (r * c)%nat = O \/ ((lo < hi)%Z /\ int64_range lo hi) ->
  exists a, randint lo hi r c raw = Ok a /\ nrows a = r /\ ncols a = c.
Proof.
  intros H. unfold randint, int64_range in *.
  destruct (Nat.eqb_spec (r * c) 0).
  - eexists. split; [reflexivity|]. split; reflexivity.
  - destruct (Z.ltb_spec lo (- 2 ^ 63)); [lia|].
    destruct (Z.ltb_spec (2 ^ 63) hi); [lia|]. cbn [orb].
    destruct (Z.ltb_spec lo hi); [|lia].
    eexists. split; [reflexivity|]. split; reflexivity.
Qed.

Lemma assign_cols_from_1_ok (w v : matrix) :
  nrows v = nrows w -> ncols v = (ncols w - 1)%nat ->
  exists w', assign_cols_from_1 w v = Ok w' /\
             nrows w' = nrows w /\ ncols w' = ncols w.
Proof.
  intros Hr Hc. unfold assign_cols_from_1.
  rewrite Hr, Hc, !Nat.eqb_refl. cbn [orb andb].
  eexists. split; [reflexivity|]. split; reflexivity.
Qed.

Lemma hstack_ok (a b : matrix) :
  nrows a = nrows b ->
  exists h, hstack a b = Ok h /\
            nrows h = nrows a /\ ncols h = (ncols a + ncols b)%nat.
Proof.
  intros H. unfold hstack. rewrite H, Nat.eqb_refl.
  eexists. split; [reflexivity|]. split; reflexivity.
Qed.

Lemma vstack_ok (a b : matrix) :
  ncols a = ncols b ->
  exists v, vstack a b = Ok v /\
            nrows v = (nrows a + nrows b)%nat /\ ncols v = ncols a.
Proof.
  intros H. unfold vstack. rewrite H, Nat.eqb_refl.
  eexists. split; [reflexivity|]. split; reflexivity.
Qed.

Lemma np_multiply_ok (a b : matrix) :
  nrows a = nrows b -> ncols a = ncols b ->
  exists p, np_multiply a b = Ok p /\
            nrows p = nrows a /\ ncols p = ncols a.
Proof.
  intros Hr Hc. unfold np_multiply, broadcast2. rewrite Hr, Hc, !bdim_refl.
  eexists. split; [reflexivity|]. cbn [nrows ncols]. split; congruence.
Qed.

Lemma call_compObs_default_ok (x w : matrix) :
  ncols x = nrows w ->
  exists phi, call_compObs x w [] = Ok phi /\
              nrows phi = nrows x /\ ncols phi = ncols w.
Proof.
  intros H. destruct (compObs_normalized x w H) as (phi & E & Hr & Hc & _).
  exists phi. repeat split; assumption.
Qed.

Lemma np_less_rand_ok (n : nat) (u : nat -> R) (c : matrix) :
  nrows c = n ->
  exists lt, np_less (rand n u) c = Ok lt /\
             nrows lt = n /\ ncols lt = ncols c.
Proof.
  intros H. unfold np_less, broadcast2. cbn [nrows ncols rand].
  rewrite H, bdim_refl, bdim_1_l.
  eexists. split; [reflexivity|]. split; reflexivity.
Qed.

Lemma argmax_axis1_ok (b : array2 bool) :
  (0 < ncols b)%nat ->
  exists obs, argmax_axis1 b = Ok obs /\ size obs = nrows b /\
              forall i, (elt obs i < ncols b)%nat.
Proof.
  intros H. destruct (argmax_axis1 b) as [obs|e] eqn:E.
  - exists obs. split; [reflexivity|]. apply argmax_axis1_inv in E. tauto.
  - unfold argmax_axis1 in E.
    destruct (Nat.eqb_spec (ncols b) 0); [lia | discriminate].
Qed.

Lemma assign_at_arange_ok (n c : nat) (obs : array1 nat) :
  size obs = n -> (forall i, (elt obs i < c)%nat) ->
  exists y, assign_at (zeros n c) (arange n) obs 1 = Ok y.
Proof.
  intros Hs Hb. unfold assign_at. cbn [size arange elt].
  rewrite Hs, bdim_refl.
  destruct (forallb _ _) eqn:Hall.
  - eexists. reflexivity.
  - exfalso. apply Bool.not_true_iff_false in Hall. apply Hall.
    apply forallb_forall. intros k Hk. apply in_seq in Hk.
    cbn [nrows ncols zeros]. apply andb_true_iff.
    rewrite !Nat.ltb_lt, bix_lt by lia. split; [lia | apply Hb].
Qed.

(** A run returns when there is at least one class, [randint] has
    something to draw from, and [bias] finds a column 1 in x. *)
Lemma generate_data_returns (self : GLM) (rng : Draws) (wdist : R * R)
      (xdist : Z * Z) (bias : bool) :
  (1 <= self_c self)%nat ->
  finite_range (fst wdist) (snd wdist) ->
  (self_n self * self_m self)%nat = O \/
  ((fst xdist < snd xdist)%Z /\ int64_range (fst xdist) (snd xdist)) ->
  (bias = true -> (2 <= self_m self)%nat) ->
  exists x w y, generate_data self rng wdist xdist bias = Ok (x, w, y).
Proof.
  intros Hc Hf Hx Hb. unfold generate_data.
  destruct (uniform_ok (fst wdist) (snd wdist) (self_m self)
              (Z.of_nat (self_c self) - 1) (draw_w rng) Hf ltac:(lia))
    as (uw & -> & Hur & Huc). cbn [rbind].
  destruct (assign_cols_from_1_ok (zeros (self_m self) (self_c self)) uw)
    as (w0 & -> & Hwr & Hwc);
    [exact Hur | cbn [ncols zeros]; lia |]. cbn [rbind].
  cbn [nrows ncols zeros] in Hwr, Hwc.
  destruct (randint_ok (fst xdist) (snd xdist) (self_n self) (self_m self)
              (draw_x rng) Hx) as (x0 & -> & Hxr & Hxc). cbn [rbind].
  assert (Hxw : exists x w,
    (if bias
     then
       col <- column_1 x0 ;;
       x' <- hstack (ones_like2 col) x0 ;;
       r0 <- row_0 w0 ;;
       ub <- uniform (fst wdist) (snd wdist) 1
                     (Z.of_nat (self_c self) - 1) (draw_b rng) ;;
       hs <- hstack (zeros 1 1) ub ;;
       brow <- np_multiply (as_row (ones_like1 r0)) hs ;;
       w' <- vstack brow w0 ;;
       Ok (x', w')
     else Ok (x0, w0)) = Ok (x, w)
    /\ nrows x = self_n self /\ ncols x = nrows w /\ ncols w = self_c self).
  { destruct bias.
    - specialize (Hb eq_refl). unfold column_1, row_0.
      destruct (Nat.ltb_spec 1 (ncols x0)); [|lia]. cbn [rbind].
      destruct (hstack_ok (ones_like2 (mk2 (nrows x0) 1
                             (fun i _ => item x0 i 1%nat))) x0 eq_refl)
        as (x' & -> & Hx'r & Hx'c). cbn [rbind].
      cbn [nrows ncols ones_like2 map2d] in Hx'r, Hx'c.
      destruct (Nat.ltb_spec 0 (nrows w0)); [|lia]. cbn [rbind].
      destruct (uniform_ok (fst wdist) (snd wdist) 1
                  (Z.of_nat (self_c self) - 1) (draw_b rng) Hf ltac:(lia))
        as (ub & -> & Hbr & Hbc). cbn [rbind].
      destruct (hstack_ok (zeros 1 1) ub) as (hs & -> & Hhr & Hhc);
        [cbn [nrows zeros]; congruence|]. cbn [rbind].
      cbn [nrows ncols zeros] in Hhr, Hhc.
      destruct (np_multiply_ok
                  (as_row (ones_like1 (mk1 (ncols w0) (fun j => item w0 O j))))
                  hs) as (brow & -> & Hmr & Hmc);
        [cbn [nrows as_row]; congruence
        |cbn [ncols as_row ones_like1 map1d size]; lia|]. cbn [rbind].
      cbn [nrows ncols as_row ones_like1 map1d size] in Hmr, Hmc.
      destruct (vstack_ok brow w0) as (w' & -> & Hvr & Hvc); [lia|].
      cbn [rbind]. exists x', w'. split; [reflexivity|]. lia.
    - exists x0, w0. split; [reflexivity|]. lia. }
  destruct Hxw as (x & w & -> & Hnx & Hxw & Hcw). cbn [rbind].
  destruct (call_compObs_default_ok x w Hxw) as (phi & -> & Hpr & Hpc).
  cbn [rbind].
  destruct (np_less_rand_ok (nrows (cumsum_axis1 phi)) (draw_u rng)
              (cumsum_axis1 phi) eq_refl) as (lt & -> & Hlr & Hlc).
  cbn [rbind]. cbn [nrows ncols cumsum_axis1] in Hlr, Hlc.
  destruct (argmax_axis1_ok lt ltac:(lia)) as (obs & -> & Hos & Hob).
  cbn [rbind].
  destruct (assign_at_arange_ok (self_n self) (self_c self) obs)
    as (y & ->); [lia | intros i; specialize (Hob i); lia |].
  cbn [rbind]. exists x, w, y. reflexivity.
Qed.

(** C9. Whenever [generate_data] returns (x, w, y), y has [self.n] rows
    and [self.c] columns, and each row has exactly one entry equal to 1,
    at a column index below c, and 0 everywhere else. *)
Theorem generate_data_one_hot (self : GLM) (rng : Draws) (wdist : R * R)
        (xdist : Z * Z) (bias : bool) (x w y : matrix) :
  generate_data self rng wdist xdist bias = Ok (x, w, y) ->
  nrows y = self_n self /\ ncols y = self_c self /\
  forall i, (i < self_n self)%nat ->
    exists k, (k < self_c self)%nat /\ item y i k = 1 /\
              forall j, j <> k -> item y i j = 0.
Proof.
  intros H. pose proof (generate_data_x _ _ _ _ _ _ _ _ H) as (Hnx & _).
  apply generate_data_inv in H.
  destruct H as (uw & w0 & x0 & phi & lt & obs & _ & _ & _ & _
                 & Ephi & Elt & Eobs & Ey).
  apply call_compObs_default_shape in Ephi. destruct Ephi as (_ & Hpr & _).
  apply np_less_rand_shape in Elt; [|reflexivity]. destruct Elt as [Hlr _].
  apply argmax_axis1_inv in Eobs. destruct Eobs as (_ & Hos & _).
  apply assign_at_arange in Ey; [|congruence].
  destruct Ey as (Hyr & Hyc & Hb & Hit).
  repeat split; try assumption.
  intros i Hi. exists (elt obs i). repeat split.
  - apply Hb, Hi.
  - rewrite Hit, Nat.eqb_refl by assumption. reflexivity.
  - intros j Hj. rewrite Hit by assumption.
    destruct (Nat.eqb_spec j (elt obs i)); [contradiction | reflexivity].
Qed.

Lemma generate_data_one_hot_witness :
  exists x w y,
    generate_data (init 3 2 3) rng_zero (- (2 / 10), 12 / 10) (-10, 10)%Z true
    = Ok (x, w, y) /\
    nrows y = 3%nat /\ ncols y = 3%nat /\
    forall i, (i < 3)%nat ->
      exists k, (k < 3)%nat /\ item y i k = 1 /\
                forall j, j <> k -> item y i j = 0.
Proof.
  destruct (generate_data_returns (init 3 2 3) rng_zero
              (- (2 / 10), 12 / 10) (-10, 10)%Z true)
    as (x & w & y & E).
  - returns_side.
  - returns_side.
  - returns_side.
  - returns_side.
  - exists x, w, y. split; [exact E|].
    exact (generate_data_one_hot _ _ _ _ _ _ _ _ E).
Defined.

Lemma uniform_between (lo hi u : R) :
  lo <= hi -> rounded_draw u -> lo <= lo + (hi - lo) * u <= hi.
Proof. unfold rounded_draw. intros H [H0 H1]. split; nra. Qed.

(** C10, as amended. For a returning run: every sampled entry of x (all
    of x without [bias], all but column 0 with it) is an integer of
    [xdist[0], xdist[1] - 1]; and, if wdist[0] <= wdist[1], every sampled
    weight (columns 1.. of every row of w, the bias row included) lies
    between wdist[0] and wdist[1], both ends included. The draws behind
    the weights are taken with their rounding: the upper end is
    reached. *)
Theorem generate_data_sampled_ranges (self : GLM) (rng : Draws)
        (wdist : R * R) (xdist : Z * Z) (bias : bool) (x w y : matrix) :
  generate_data self rng wdist xdist bias = Ok (x, w, y) ->
  (forall i j, rounded_draw (draw_w rng i j)) ->
  (forall i j, rounded_draw (draw_b rng i j)) ->
  (forall i j, (i < self_n self)%nat -> (j < self_m self)%nat ->
     exists z, item x i (bias_cols bias + j) = IZR z /\
               (fst xdist <= z <= snd xdist - 1)%Z) /\
  (fst wdist <= snd wdist ->
   forall i j, (i < bias_cols bias + self_m self)%nat ->
               (S j < self_c self)%nat ->
     fst wdist <= item w i (S j) <= snd wdist).
Proof.
  intros H Vw Vb. split.
  - apply generate_data_x in H. destruct H as (_ & _ & _ & Hz).
    intros i j Hi Hj. destruct (Hz i j Hi Hj) as (z & E & Hr).
    exists z. split; [exact E | lia].
  - intros Hlt i j Hi Hj. apply generate_data_w in H.
    destruct H as (_ & Hr & _ & _ & Hw).
    destruct (Hw i j ltac:(lia) Hj) as (u & [-> | ->] & ->);
      apply uniform_between; auto.
Qed.

Lemma generate_data_sampled_ranges_witness :
  exists x w y,
    generate_data (init 3 2 3) rng_zero (- (2 / 10), 12 / 10) (-10, 10)%Z true
    = Ok (x, w, y) /\
    (forall i j, (i < 3)%nat -> (j < 2)%nat ->
       exists z, item x i (1 + j) = IZR z /\ (-10 <= z <= 10 - 1)%Z) /\
    (- (2 / 10) <= 12 / 10 ->
     forall i j, (i < 1 + 2)%nat -> (S j < 3)%nat ->
       - (2 / 10) <= item w i (S j) <= 12 / 10).
Proof.
  destruct (generate_data_returns (init 3 2 3) rng_zero
              (- (2 / 10), 12 / 10) (-10, 10)%Z true)
    as (x & w & y & E).
  - returns_side.
  - returns_side.
  - returns_side.
  - returns_side.
  - exists x, w, y. split; [exact E|].
    apply (generate_data_sampled_ranges _ _ _ _ _ _ _ _ E);
      intros; unfold rounded_draw, rng_zero; cbn; lra.
Defined.

(** C10, as stated, fails: on a fitter with n = 1, m = 2, c = 2, with
    xdist = (5, 10), wdist = (1, 1), [bias] set and unit draws in [0,1),
    the run returns an x whose entry (0, 0) is the 1 of the bias column,
    outside [5, 9], and a w whose sampled entry (0, 1) is wdist[1] = 1
    itself, which the half-open interval [1, 1) excludes. *)
Lemma generate_data_ranges_counterexample :
  exists x w y,
    generate_data (init 1 2 2) rng_zero (1, 1) (5, 10)%Z true = Ok (x, w, y) /\
    valid_draws rng_zero /\
    ~ (exists z, item x O O = IZR z /\ (5 <= z <= 10 - 1)%Z) /\
    item w O 1%nat = 1 /\ ~ (1 <= item w O 1%nat < 1).
Proof.
  destruct (generate_data_returns (init 1 2 2) rng_zero (1, 1) (5, 10)%Z true)
    as (x & w & y & E).
  - returns_side.
  - returns_side.
  - returns_side.
  - returns_side.
  - exists x, w, y. split; [exact E|]. split; [|split].
    + unfold valid_draws, unit_draw, rng_zero. cbn. repeat split; lra.
    + pose proof (generate_data_x _ _ _ _ _ _ _ _ E) as (_ & _ & Hb & _).
      destruct (Hb eq_refl) as [_ H1]. rewrite H1.
      intros (z & Ez & Hz). apply eq_IZR in Ez. lia.
    + split; [|lra].
      pose proof (generate_data_w _ _ _ _ _ _ _ _ E) as (_ & Hr & _ & _ & Hw).
      destruct (Hw O O) as (u & _ & ->).
      * rewrite Hr. cbn. lia.
      * cbn. lia.
      * cbn [fst snd]. ring.
Qed.

(** ** [generate_data] followed by [fit] *)

Lemma resolve_shape_mismatch (total r c : nat) :
  (r * c)%nat <> total -> (1 <= c)%nat ->
  resolve_shape total (Z.of_nat r) (Z.of_nat (S c) - 1) = Raise ValueError.
Proof.
  intros Hne Hc. unfold resolve_shape.
  replace (Z.of_nat (S c) - 1)%Z with (Z.of_nat c) by lia.
  destruct (Z.ltb_spec (Z.of_nat r) (-1)); [lia|].
  destruct (Z.ltb_spec (Z.of_nat c) (-1)); [lia|]. cbn [orb].
  destruct (Z.eqb_spec (Z.of_nat r) (-1)); [lia|]. cbn [andb].
  destruct (Z.eqb_spec (Z.of_nat c) (-1)); [lia|].
  rewrite !Nat2Z.id.
  destruct (Nat.eqb_spec (r * c) total); [contradiction | reflexivity].
Qed.

(** C4. The triple that [generate_data] returns is claimed to be usable
    as input of [neglogli] and [fit] on the same fitter. With [bias] set
    x comes back with [self.m + 1] columns and w with [self.m + 1] rows;
    [neglogli] raises on it as on every input, and [fit], given a
    minimizer whose result has as many coordinates as its starting point,
    raises too when there are at least two classes: the block it reshapes
    to [(self.m, self.c - 1)] has [(self.m + 1) * (self.c - 1)] entries. *)
Theorem generated_data_fails_in_fit
        (grad_of : (ndarray -> M R) -> ndarray -> vector)
        (hess_of : (ndarray -> M R) -> ndarray -> array4)
        (lbfgsb : vector -> plan (R * vector) vector)
        (inv : matrix -> result matrix)
        (self : GLM) (rng : Draws) (wdist : R * R) (xdist : Z * Z)
        (x w y : matrix) (compHess : bool) :
  (forall x0, returns_size (size x0) (lbfgsb x0)) ->
  generate_data self rng wdist xdist true = Ok (x, w, y) ->
  (2 <= self_c self)%nat ->
  (ncols x = S (self_m self) /\ nrows w = S (self_m self)) /\
  neglogli x (Arr2 w) y self = (self, Raise TypeError) /\
  exists e, fit grad_of hess_of lbfgsb inv x w y compHess self
            = (self, Raise e).
Proof.
  intros Hsz H Hc.
  pose proof (generate_data_x _ _ _ _ _ _ _ _ H) as (_ & Hxc & _).
  pose proof (generate_data_w _ _ _ _ _ _ _ _ H) as (_ & Hwr & Hwc & _).
  cbn [bias_cols] in Hxc, Hwr.
  split; [split; assumption|]. split; [reflexivity|].
  unfold fit. unfold bind at 1. rewrite minimize_objective.
  specialize (Hsz (flatten (cols_from_1 w))).
  destruct (lbfgsb (flatten (cols_from_1 w))) as [res|e|q k].
  - cbn [returns_size size flatten nrows ncols cols_from_1] in Hsz.
    unfold bind at 1. unfold get at 1. unfold bind at 1. unfold lift at 1.
    unfold reshape. rewrite Hsz, Hwr, Hwc.
    destruct (self_c self) as [|c]; [lia|].
    rewrite resolve_shape_mismatch; [| cbn; nia | lia].
    exists ValueError. reflexivity.
  - exists e. reflexivity.
  - exists TypeError. reflexivity.
Qed.

Lemma generated_data_fails_in_fit_witness :
  exists x w y,
    generate_data (init 1 2 2) rng_zero (- (2 / 10), 12 / 10) (-10, 10)%Z true
    = Ok (x, w, y) /\
    (ncols x = 3%nat /\ nrows w = 3%nat) /\
    neglogli x (Arr2 w) y (init 1 2 2) = (init 1 2 2, Raise TypeError) /\
    exists e, fit grad_zero hess_zero lbfgsb_stop inv_refuse x w y false
                  (init 1 2 2)
              = (init 1 2 2, Raise e).
Proof.
  destruct (generate_data_returns (init 1 2 2) rng_zero
              (- (2 / 10), 12 / 10) (-10, 10)%Z true)
    as (x & w & y & E).
  - returns_side.
  - returns_side.
  - returns_side.
  - returns_side.
  - exists x, w, y. split; [exact E|].
    apply (generated_data_fails_in_fit grad_zero hess_zero lbfgsb_stop
             inv_refuse (init 1 2 2) rng_zero (- (2 / 10), 12 / 10)
             (-10, 10)%Z x w y false).
    + intros x0. reflexivity.
    + exact E.
    + cbn. lia.
Defined.

(** With [bias] set and fewer than two features, line 158 indexes a
    column that x does not have. *)
Lemma generate_data_bias_needs_two_features (self : GLM) (rng : Draws)
      (wdist : R * R) (xdist : Z * Z) :
  (1 <= self_c self)%nat -> (self_m self < 2)%nat ->
  finite_range (fst wdist) (snd wdist) ->
  (self_n self * self_m self)%nat = O \/
  ((fst xdist < snd xdist)%Z /\ int64_range (fst xdist) (snd xdist)) ->
  generate_data self rng wdist xdist true = Raise IndexError.
Proof.
  intros Hc Hm Hf Hx. unfold generate_data.
  destruct (uniform_ok (fst wdist) (snd wdist) (self_m self)
              (Z.of_nat (self_c self) - 1) (draw_w rng) Hf ltac:(lia))
    as (uw & -> & Hur & Huc). cbn [rbind].
  destruct (assign_cols_from_1_ok (zeros (self_m self) (self_c self)) uw)
    as (w0 & -> & Hwr & Hwc);
    [exact Hur | cbn [ncols zeros]; lia |]. cbn [rbind].
  destruct (randint_ok (fst xdist) (snd xdist) (self_n self) (self_m self)
              (draw_x rng) Hx) as (x0 & -> & Hxr & Hxc). cbn [rbind].
  unfold column_1. destruct (Nat.ltb_spec 1 (ncols x0)); [lia|].
  reflexivity.
Qed.

(** * Further properties of the code *)

(** ** [compObs]: domain, range and invariance *)



(** X1. [compObs] returns exactly when x has as many columns as w has
    rows, with or without normalization: then the result has the rows of
    x and the columns of w; otherwise the call raises [ValueError]. *)
Theorem compObs_domain (x w : matrix) (normalize : bool) :
  (ncols x = nrows w ->
   exists phi, compObs x w normalize = Ok phi /\
               nrows phi = nrows x /\ ncols phi = ncols w) /\
  (ncols x <> nrows w -> compObs x w normalize = Raise ValueError).
Proof.
  split.
  - intros H. destruct normalize.
    + destruct (compObs_normalized x w H) as (phi & E & Hr & Hc & _).
      exists phi. repeat split; assumption.
    + rewrite (compObs_unnormalized x w H). eexists.
      split; [reflexivity|]. split; reflexivity.
  - apply compObs_shape_mismatch.
Qed.

Lemma compObs_domain_witness :
  (exists phi, compObs x_four w_four true = Ok phi /\
               nrows phi = 4%nat /\ ncols phi = 2%nat) /\
  compObs x_two w_four false = Raise ValueError.
Proof.
  split.
  - apply (proj1 (compObs_domain x_four w_four true)). reflexivity.
  - apply (proj2 (compObs_domain x_two w_four false)). simpl. lia.
Defined.

(** X4. The two modes of [compObs] agree up to the row sums: entry (i, j)
    of the normalized matrix is entry (i, j) of the unnormalized one
    divided by the sum of row i of the unnormalized one (a row is divided
    by its own sum, not by a column's). *)
Theorem compObs_normalized_from_unnormalized (x w u phi : matrix) :
  compObs x w false = Ok u -> compObs x w true = Ok phi ->
  nrows phi = nrows u /\ ncols phi = ncols u /\
  forall i j, (i < nrows u)%nat -> (j < ncols u)%nat ->
    item phi i j = item u i j / rsum (ncols u) (fun k => item u i k).
Proof.
  intros Eu Ep.
  destruct (Nat.eq_dec (ncols x) (nrows w)) as [H|H];
    [|rewrite compObs_shape_mismatch in Eu by assumption; discriminate].
  rewrite (compObs_unnormalized x w H) in Eu.
  inversion Eu; subst u; clear Eu.
  destruct (compObs_normalized x w H) as (p & E & Hr & Hc & Hit).
  rewrite E in Ep. inversion Ep; subst p; clear Ep.
  cbn [nrows ncols item]. repeat split; try assumption.
Qed.

Lemma compObs_normalized_from_unnormalized_witness :
  exists u phi,
    compObs x_four w_four false = Ok u /\
    compObs x_four w_four true = Ok phi /\
    nrows phi = nrows u /\ ncols phi = ncols u /\
    forall i j, (i < nrows u)%nat -> (j < ncols u)%nat ->
      item phi i j = item u i j / rsum (ncols u) (fun k => item u i k).
Proof.
  destruct (compObs_normalized x_four w_four eq_refl) as (phi & E & _).
  pose proof (compObs_unnormalized x_four w_four eq_refl) as Eu.
  eexists. exists phi. split; [exact Eu|]. split; [exact E|].
  exact (compObs_normalized_from_unnormalized x_four w_four _ phi Eu E).
Defined.

(** ** [fit]: what it returns, what it raises, what it leaves alone *)

Lemma resolve_shape_other_size (total r c : nat) :
  (r * c)%nat <> total ->
  resolve_shape total (Z.of_nat r) (Z.of_nat c) = Raise ValueError.
Proof.
  intros Hne. unfold resolve_shape.
  destruct (Z.ltb_spec (Z.of_nat r) (-1)); [lia|].
  destruct (Z.ltb_spec (Z.of_nat c) (-1)); [lia|]. cbn [orb].
  destruct (Z.eqb_spec (Z.of_nat r) (-1)); [lia|]. cbn [andb].
  destruct (Z.eqb_spec (Z.of_nat c) (-1)); [lia|].
  rewrite !Nat2Z.id.
  destruct (Nat.eqb_spec (r * c) total); [contradiction | reflexivity].
Qed.

Section FitBehaviour.

Variable grad_of : (ndarray -> M R) -> ndarray -> vector.
Variable hess_of : (ndarray -> M R) -> ndarray -> array4.
Variable lbfgsb : vector -> plan (R * vector) vector.
Variable inv : matrix -> result matrix.

(** X9. As soon as the minimizer asks for the objective at any point,
    [fit] ends in the [TypeError] of line 79, and [self] is exactly as it
    was: nothing has been cached. *)
Theorem fit_objective_call_raises (x w y : matrix) (compHess : bool)
        (self : GLM) (q : vector) (k : R * vector -> plan (R * vector) vector) :
  lbfgsb (flatten (cols_from_1 w)) = Ask q k ->
  fit grad_of hess_of lbfgsb inv x w y compHess self
  = (self, Raise TypeError).
Proof.
  intros El. unfold fit, bind. cbv zeta.
  rewrite minimize_objective, El. reflexivity.
Qed.

(** X10. Whatever its outcome, a call of [fit] leaves [self.n], [self.m],
    [self.c], [self.ll] and [self.variance] as they were: only
    [self.w_new] and [self.phi] can change. *)
Theorem fit_frame (x w y : matrix) (compHess : bool) (self : GLM) :
  let self' := fst (fit grad_of hess_of lbfgsb inv x w y compHess self) in
  self_n self' = self_n self /\ self_m self' = self_m self /\
  self_c self' = self_c self /\ self_ll self' = self_ll self /\
  self_variance self' = self_variance self.
Proof.
  unfold fit, bind, get, lift, set_w_new, set_phi, attribute, ret.
  cbv zeta. rewrite minimize_objective.
  destruct (lbfgsb (flatten (cols_from_1 w))) as [res|e|q k];
    [|cbn; repeat split|cbn; repeat split].
  destruct (reshape res _ _) as [blk|e]; [|cbn; repeat split].
  destruct (hstack _ blk) as [wn|e]; [|cbn; repeat split].
  destruct (call_compObs x w []) as [p|e]; [|cbn; repeat split].
  destruct compHess;
    cbn [self_n self_m self_c self_ll self_w_new self_phi self_variance].
  - rewrite hessian_objective. cbn. repeat split.
  - cbn. repeat split.
Qed.

(** X13. A minimizer keeps the number of coordinates of its starting
    point, so [fit] needs a w whose free block has m * (c - 1) entries:
    for any other w (c >= 1) the call raises, and [self] is exactly as it
    was. *)
Theorem fit_rejects_wrong_size (x w y : matrix) (compHess : bool)
        (self : GLM) :
  (forall x0, returns_size (size x0) (lbfgsb x0)) ->
  (1 <= self_c self)%nat ->
  (nrows w * (ncols w - 1))%nat <> (self_m self * (self_c self - 1))%nat ->
  exists e, fit grad_of hess_of lbfgsb inv x w y compHess self
            = (self, Raise e).
Proof.
  intros Hsz Hc Hne.
  unfold fit, bind, get, lift. cbv zeta. rewrite minimize_objective.
  specialize (Hsz (flatten (cols_from_1 w))).
  destruct (lbfgsb (flatten (cols_from_1 w))) as [res|e|q k].
  - cbn [returns_size size flatten nrows ncols cols_from_1] in Hsz.
    unfold reshape. rewrite Hsz.
    replace (Z.of_nat (self_c self) - 1)%Z
      with (Z.of_nat (self_c self - 1)) by lia.
    rewrite resolve_shape_other_size by lia.
    exists ValueError. reflexivity.
  - exists e. reflexivity.
  - exists TypeError. reflexivity.
Qed.

End FitBehaviour.

Lemma fit_objective_call_raises_witness :
  fit grad_zero hess_zero lbfgsb_probe inv_refuse x_one w_one y_one false
      (init 1 1 2) = (init 1 1 2, Raise TypeError).
Proof.
  apply (fit_objective_call_raises grad_zero hess_zero lbfgsb_probe inv_refuse
           x_one w_one y_one false (init 1 1 2)
           (flatten (cols_from_1 w_one))
           (fun _ => Done (flatten (cols_from_1 w_one)))).
  reflexivity.
Defined.

Lemma fit_rejects_wrong_size_witness :
  exists e,
    fit grad_zero hess_zero lbfgsb_stop inv_refuse x_one w_tall y_one false
        (init 1 1 2) = (init 1 1 2, Raise e).
Proof.
  apply (fit_rejects_wrong_size grad_zero hess_zero lbfgsb_stop inv_refuse
           x_one w_tall y_one false (init 1 1 2)).
  - intros x0. reflexivity.
  - simpl. lia.
  - simpl. lia.
Defined.

(** ** [generate_data]: domain, shapes and the sampling of the labels *)

(** X15. The x and w of a returning run conform, and all three arrays
    have the shapes of one data set: x has n rows and as many columns as
    w has rows, w and y have c columns, y has n rows, and
    [compObs x w] returns an n x c matrix on them. *)
Theorem generate_data_conformable (self : GLM) (rng : Draws) (wdist : R * R)
        (xdist : Z * Z) (bias : bool) (x w y : matrix) :
  generate_data self rng wdist xdist bias = Ok (x, w, y) ->
  nrows x = self_n self /\ ncols x = nrows w /\ ncols w = self_c self /\
  nrows y = self_n self /\ ncols y = self_c self /\
  exists phi, compObs x w true = Ok phi /\
              nrows phi = self_n self /\ ncols phi = self_c self.
Proof.
  intros E.
  pose proof (generate_data_x _ _ _ _ _ _ _ _ E) as (Hxr & Hxc & _).
  pose proof (generate_data_w _ _ _ _ _ _ _ _ E) as (_ & Hwr & Hwc & _).
  apply generate_data_inv in E.
  destruct E as (uw & w0 & x0 & phi & lt & obs & _ & _ & _ & _
                 & Ephi & Elt & Eobs & Ey).
  pose proof (call_compObs_default_shape _ _ _ Ephi) as (_ & Hpr & Hpc).
  apply np_less_rand_shape in Elt; [|reflexivity]. destruct Elt as [Hlr _].
  apply argmax_axis1_inv in Eobs. destruct Eobs as (_ & Hos & _).
  apply assign_at_arange in Ey; [|congruence].
  destruct Ey as (Hyr & Hyc & _).
  repeat split; try congruence.
  exists phi. repeat split; [exact Ephi | congruence | congruence].
Qed.

Lemma generate_data_conformable_witness :
  exists x w y,
    generate_data (init 3 2 3) rng_zero (- (2 / 10), 12 / 10) (-10, 10)%Z true
    = Ok (x, w, y) /\
    nrows x = 3%nat /\ ncols x = nrows w /\ ncols w = 3%nat /\
    nrows y = 3%nat /\ ncols y = 3%nat /\
    exists phi, compObs x w true = Ok phi /\
                nrows phi = 3%nat /\ ncols phi = 3%nat.
Proof.
  destruct (generate_data_returns (init 3 2 3) rng_zero
              (- (2 / 10), 12 / 10) (-10, 10)%Z true)
    as (x & w & y & E).
  - returns_side.
  - returns_side.
  - returns_side.
  - returns_side.
  - exists x, w, y. split; [exact E|].
    exact (generate_data_conformable _ _ _ _ _ _ _ _ E).
Defined.

(** X16. In the w of a returning run column 0 is zero in every row, the
    bias row included: the generated weights obey the convention that
    [fit] imposes on w_new. *)
Theorem generate_data_reference_column (self : GLM) (rng : Draws)
        (wdist : R * R) (xdist : Z * Z) (bias : bool) (x w y : matrix) :
  generate_data self rng wdist xdist bias = Ok (x, w, y) ->
  (1 <= ncols w)%nat /\
  forall i, (i < nrows w)%nat -> item w i O = 0.
Proof.
  intros E.
  pose proof (generate_data_w _ _ _ _ _ _ _ _ E) as (Hc & _ & Hwc & H0 & _).
  split; [lia | exact H0].
Qed.

Lemma generate_data_reference_column_witness :
  exists x w y,
    generate_data (init 3 2 3) rng_zero (- (2 / 10), 12 / 10) (-10, 10)%Z true
    = Ok (x, w, y) /\
    (1 <= ncols w)%nat /\
    forall i, (i < nrows w)%nat -> item w i O = 0.
Proof.
  destruct (generate_data_returns (init 3 2 3) rng_zero
              (- (2 / 10), 12 / 10) (-10, 10)%Z true)
    as (x & w & y & E).
  - returns_side.
  - returns_side.
  - returns_side.
  - returns_side.
  - exists x, w, y. split; [exact E|].
    exact (generate_data_reference_column _ _ _ _ _ _ _ _ E).
Defined.

(** X17. With [bias] a returning run gives an x of m + 1 columns whose
    column 0 is all ones and a w of m + 1 rows; without it x has m
    columns and w has m rows. *)
Theorem generate_data_bias_column (self : GLM) (rng : Draws)
        (wdist : R * R) (xdist : Z * Z) (bias : bool) (x w y : matrix) :
  generate_data self rng wdist xdist bias = Ok (x, w, y) ->
  if bias
  then ncols x = S (self_m self) /\ nrows w = S (self_m self) /\
       forall i, item x i O = 1
  else ncols x = self_m self /\ nrows w = self_m self.
Proof.
  intros E.
  pose proof (generate_data_x _ _ _ _ _ _ _ _ E) as (_ & Hxc & Hb & _).
  pose proof (generate_data_w _ _ _ _ _ _ _ _ E) as (_ & Hwr & _).
  destruct bias; cbn [bias_cols] in Hxc, Hwr.
  - destruct (Hb eq_refl) as [_ H1]. repeat split; assumption.
  - split; assumption.
Qed.

Lemma generate_data_bias_column_witness :
  exists x w y,
    generate_data (init 3 2 3) rng_zero (- (2 / 10), 12 / 10) (-10, 10)%Z true
    = Ok (x, w, y) /\
    ncols x = 3%nat /\ nrows w = 3%nat /\ forall i, item x i O = 1.
Proof.
  destruct (generate_data_returns (init 3 2 3) rng_zero
              (- (2 / 10), 12 / 10) (-10, 10)%Z true)
    as (x & w & y & E).
  - returns_side.
  - returns_side.
  - returns_side.
  - returns_side.
  - exists x, w, y. split; [exact E|].
    exact (generate_data_bias_column _ _ _ _ _ _ _ _ E).
Defined.






(** ** [generate_data]: when it returns, what it raises, how it labels *)

Lemma randint_inv_bounds (lo hi : Z) (r c : nat) (raw : nat -> nat -> Z)
      (a : matrix) :
  randint lo hi r c raw = Ok a -> (r * c)%nat <> O -> int64_range lo hi.
Proof.
  unfold randint, int64_range.
  destruct (Nat.eqb_spec (r * c) 0) as [E0|N0]; [contradiction|].
  destruct (Z.ltb_spec lo (- 2 ^ 63)); [discriminate|].
  destruct (Z.ltb_spec (2 ^ 63) hi); [discriminate|]. cbn [orb].
  intros _ _. split; assumption.
Qed.

(** X14. [generate_data] returns exactly when the fitter has at least
    one class, the range wdist[1] - wdist[0] is a finite float64, xdist
    is a non-empty range of 64-bit integers or no feature value is drawn
    (n * m = 0), and, with [bias], there are at least two features. *)
Theorem generate_data_domain (self : GLM) (rng : Draws) (wdist : R * R)
        (xdist : Z * Z) (bias : bool) :
  (exists x w y, generate_data self rng wdist xdist bias = Ok (x, w, y)) <->
  (1 <= self_c self)%nat /\
  finite_range (fst wdist) (snd wdist) /\
  ((self_n self * self_m self)%nat = O \/
   ((fst xdist < snd xdist)%Z /\ int64_range (fst xdist) (snd xdist))) /\
  (bias = true -> (2 <= self_m self)%nat).
Proof.
  split.
  - intros (x & w & y & E).
    pose proof (generate_data_w _ _ _ _ _ _ _ _ E) as (Hc & _).
    pose proof (generate_data_x _ _ _ _ _ _ _ _ E) as (_ & _ & Hb & _).
    apply generate_data_inv in E.
    destruct E as (uw & w0 & x0 & phi & lt & obs & Euw & _ & Ex0 & _).
    pose proof (uniform_inv_range _ _ _ _ _ _ Euw) as Hf.
    pose proof (randint_inv_bounds _ _ _ _ _ _ Ex0) as Hi.
    apply randint_inv in Ex0. destruct Ex0 as (_ & _ & Hx).
    split; [exact Hc|]. split; [exact Hf|]. split.
    + destruct (Nat.eq_dec (self_n self * self_m self) 0) as [E0|N0];
        [left; exact E0 | right; split; [apply Hx, N0 | apply Hi, N0]].
    + intros Hbias. apply Hb, Hbias.
  - intros (Hc & Hf & Hx & Hb). apply generate_data_returns; assumption.
Qed.

(** X18. The first thing [generate_data] does is draw the weights: a
    range wdist[1] - wdist[0] that is not a finite float64 raises
    [OverflowError] at line 151, whatever the other arguments. With a
    finite range, the call raises [ValueError] on a fitter without
    classes (line 151 asks for c - 1 = -1 columns), and on a fitter with
    a class when feature values have to be drawn (n * m > 0) and xdist is
    empty or reaches outside the 64-bit integers (line 154). *)
Theorem generate_data_range_errors (self : GLM) (rng : Draws)
        (wdist : R * R) (xdist : Z * Z) (bias : bool) :
  (~ finite_range (fst wdist) (snd wdist) ->
   generate_data self rng wdist xdist bias = Raise OverflowError) /\
  (finite_range (fst wdist) (snd wdist) ->
   self_c self = O \/
   ((self_n self * self_m self)%nat <> O /\
    ((snd xdist <= fst xdist)%Z \/ ~ int64_range (fst xdist) (snd xdist))) ->
   generate_data self rng wdist xdist bias = Raise ValueError).
Proof.
  split.
  - intros Hn. unfold generate_data, uniform, finite_range in *.
    destruct (Rle_dec float64_overflow (Rabs (snd wdist - fst wdist)));
      [reflexivity | lra].
  - intros Hf H. unfold generate_data.
    destruct (Nat.eq_dec (self_c self) 0) as [Hc|Hc].
    + unfold uniform, finite_range in *.
      destruct (Rle_dec float64_overflow (Rabs (snd wdist - fst wdist)));
        [lra|].
      rewrite Hc. reflexivity.
    + destruct H as [H|[Hnm Hx]]; [contradiction|].
      destruct (uniform_ok (fst wdist) (snd wdist) (self_m self)
                  (Z.of_nat (self_c self) - 1) (draw_w rng) Hf ltac:(lia))
        as (uw & -> & Hur & Huc). cbn [rbind].
      destruct (assign_cols_from_1_ok (zeros (self_m self) (self_c self)) uw)
        as (w0 & -> & _);
        [exact Hur | cbn [ncols zeros]; lia |]. cbn [rbind].
      unfold randint, int64_range in *.
      destruct (Nat.eqb_spec (self_n self * self_m self) 0); [contradiction|].
      destruct (Z.ltb_spec (fst xdist) (- 2 ^ 63)); [reflexivity|].
      destruct (Z.ltb_spec (2 ^ 63) (snd xdist)); [reflexivity|]. cbn [orb].
      destruct (Z.ltb_spec (fst xdist) (snd xdist)); [|reflexivity].
      destruct Hx as [Hx|Hx]; [lia | exfalso; apply Hx; split; lia].
Qed.

Lemma float64_overflow_below_2e308 : float64_overflow <= 2 * 10 ^ 308.
Proof.
  unfold float64_overflow.
  replace (2 * 10 ^ 308) with (IZR (2 * 10 ^ 308))
    by (rewrite mult_IZR; change (10 ^ 308)%Z with (10 ^ Z.of_nat 308)%Z;
        rewrite <- pow_IZR; reflexivity).
  apply IZR_le. vm_compute. discriminate.
Qed.

Lemma generate_data_range_errors_witness :
  generate_data (init 3 2 3) rng_zero (- 10 ^ 308, 10 ^ 308) (-10, 10)%Z true
  = Raise OverflowError /\
  generate_data (init 3 2 0) rng_zero (- (2 / 10), 12 / 10) (-10, 10)%Z true
  = Raise ValueError /\
  generate_data (init 3 2 3) rng_zero (- (2 / 10), 12 / 10) (10, 10)%Z true
  = Raise ValueError.
Proof.
  split; [|split].
  - apply (proj1 (generate_data_range_errors (init 3 2 3) rng_zero
                    (- 10 ^ 308, 10 ^ 308) (-10, 10)%Z true)).
    unfold finite_range. cbn [fst snd].
    pose proof float64_overflow_below_2e308.
    assert (0 < 10 ^ 308) by (apply pow_lt; lra).
    rewrite Rabs_pos_eq by lra. lra.
  - apply (proj2 (generate_data_range_errors (init 3 2 0) rng_zero
                    (- (2 / 10), 12 / 10) (-10, 10)%Z true)).
    + apply finite_range_small. cbn [fst snd]. lra.
    + left. reflexivity.
  - apply (proj2 (generate_data_range_errors (init 3 2 3) rng_zero
                    (- (2 / 10), 12 / 10) (10, 10)%Z true)).
    + apply finite_range_small. cbn [fst snd]. lra.
    + right. split; [cbn; lia | left; cbn; lia].
Defined.

(** X19. On a fitter with fewer than two features, with arguments that
    pass lines 151 and 154 (a class, a finite weight range, a non-empty
    range of 64-bit integers or nothing to draw), the default
    [bias=True] makes [generate_data] raise [IndexError] (line 158 reads
    column 1 of x), while the same call with [bias=False] returns. *)
Theorem generate_data_bias_index_error (self : GLM) (rng : Draws)
        (wdist : R * R) (xdist : Z * Z) :
  (1 <= self_c self)%nat -> (self_m self < 2)%nat ->
  finite_range (fst wdist) (snd wdist) ->
  (self_n self * self_m self)%nat = O \/
  ((fst xdist < snd xdist)%Z /\ int64_range (fst xdist) (snd xdist)) ->
  generate_data self rng wdist xdist true = Raise IndexError /\
  exists x w y, generate_data self rng wdist xdist false = Ok (x, w, y).
Proof.
  intros Hc Hm Hf Hx. split.
  - apply generate_data_bias_needs_two_features; assumption.
  - apply generate_data_returns;
      [assumption | assumption | assumption | discriminate].
Qed.

Lemma generate_data_bias_index_error_witness :
  generate_data (init 4 1 2) rng_zero (- (2 / 10), 12 / 10) (-10, 10)%Z true
  = Raise IndexError /\
  exists x w y,
    generate_data (init 4 1 2) rng_zero (- (2 / 10), 12 / 10) (-10, 10)%Z false
    = Ok (x, w, y).
Proof.
  apply (generate_data_bias_index_error (init 4 1 2)).
  - returns_side.
  - cbn. lia.
  - returns_side.
  - returns_side.
Defined.


